(** * OORT DataHub Africa assistant: session orchestration of [app.py]

    A shallow embedding of the orchestration code of [app.py] (recording
    toggle, listen task, input pipeline, refresh cycle) together with the
    properties of its specification.

    The Streamlit session store, the started threads and the trace of
    observable effects are gathered in a [World]; a function of the script is
    a computation [M A] that threads the world and either returns or raises. *)

From Stdlib Require Import List NArith ZArith Bool String Ascii Lia.
Import ListNotations.

Set Implicit Arguments.

(** ** Python strings *)

Module PyStr.

(** A Python [str] is a sequence of Unicode code points. *)
Definition str := list N.

(** An ASCII literal of the script. *)
Definition lit (s : string) : str := map N_of_ascii (list_ascii_of_string s).

(** [a == b] on strings. *)
Fixpoint eqb (a b : str) : bool :=
  match a, b with
  | [], [] => true
  | x :: a', y :: b' => N.eqb x y && eqb a' b'
  | _, _ => false
  end.

(** Truth value of a string in a condition: the empty string is false. *)
Definition truthy (s : str) : bool :=
  match s with [] => false | _ :: _ => true end.

(** The code points that CPython classifies as whitespace
    (bidirectional class WS, B or S, or general category Zs). *)
Definition is_whitespace (c : N) : bool :=
  ((0x09 <=? c) && (c <=? 0x0D)
   || (0x1C <=? c) && (c <=? 0x20)
   || (c =? 0x85) || (c =? 0xA0) || (c =? 0x1680)
   || (0x2000 <=? c) && (c <=? 0x200A)
   || (c =? 0x2028) || (c =? 0x2029) || (c =? 0x202F)
   || (c =? 0x205F) || (c =? 0x3000))%N.

(** [s.isspace()]: at least one character, and all of them whitespace. *)
Definition isspace (s : str) : bool := truthy s && forallb is_whitespace s.

End PyStr.
Import PyStr.

(** ** Session state, threads and effects *)

(** The four values [st.session_state.language] ever takes: the initial
    ["english"] and the values of [language_options]. *)
Inductive Language := english | french | arabic | swahili.

Definition Language_eqb (a b : Language) : bool :=
  match a, b with
  | english, english | french, french | arabic, arabic | swahili, swahili => true
  | _, _ => false
  end.

(** An entry of [st.session_state.messages]: [{"role": ..., "content": ...}]. *)
Record Message := { role : str; content : str }.

(** [st.session_state]. *)
Record SessionState := {
  messages : list Message;
  recording : bool;
  language : Language;
  last_voice_input : option str
}.

(** Lines 26-36: the defaults of a new session. *)
Definition initial_session : SessionState :=
  {| messages := []; recording := false; language := english;
     last_voice_input := None |}.

(** The target (and arguments) of a [threading.Thread]. *)
Inductive Task :=
| Target_record_audio
| Target_speak (text : str) (lang : Language).

(** Exceptions. [st.rerun()] stops the run with [RerunException], which is a
    [BaseException] and so is not caught by [except Exception]. *)
Inductive exn :=
| Exception (msg : str)
| BaseException (msg : str)
| RerunException.

Definition is_Exception (e : exn) : bool :=
  match e with Exception _ => true | _ => false end.

(** [str(e)]. *)
Definition str_of_exn (e : exn) : str :=
  match e with
  | Exception msg | BaseException msg => msg
  | RerunException => []
  end.

(** The component named on a line of the "System Status" panel. *)
Inductive Component := VoiceInputC | VoiceOutputC | KnowledgeBaseC.

(** Observable effects, in the order they happen: Streamlit calls, calls of
    the collaborators, and writes to [st.session_state]. *)
Inductive Event :=
| StError (msg : str)
| StSuccess (msg : str)
| StWarning (msg : str)
| StWrite (msg : str)
| StTitle (msg : str)
| StSubheader (msg : str)
| StImage (file : str)
| StDivider
| StSelectbox (current : Language)
| StStatus (c : Component) (ok : bool)
| StExpander (label : str)
| StChatMessage (role content : str)
| StChatInput
| StButton (disabled : bool)
| StSpinnerEnter (msg : str)
| StSpinnerExit
| StRerun
| TracebackPrintExc (e : exn)
| ThreadExcepthook (e : exn)
| Listen (lang : Language) (timeout : Z)
| KbQuery (text : str) (lang : Language)
| Play (text : str) (lang : Language)
| MessagesAppend (m : Message)
| SetRecording (b : bool)
| SetLanguage (l : Language)
| SetLastVoiceInput (v : option str).

Record World := {
  session : SessionState;
  threads : list Task;      (* threads started so far, oldest first *)
  log : list Event          (* effects so far, oldest first *)
}.

Definition initial_world : World :=
  {| session := initial_session; threads := []; log := [] |}.

Inductive outcome (A : Type) :=
| Return (a : A)
| Raise (e : exn).
Arguments Raise {A} e.

(** A computation of the script. *)
Definition M (A : Type) := World -> outcome A * World.

Definition ret {A} (a : A) : M A := fun w => (Return a, w).

Definition raise {A} (e : exn) : M A := fun w => (Raise e, w).

Definition bind {A B} (c : M A) (k : A -> M B) : M B :=
  fun w =>
    match c w with
    | (Return a, w') => k a w'
    | (Raise e, w') => (Raise e, w')
    end.

Declare Scope py_scope.
Delimit Scope py_scope with py.
Notation "x <- c ;; k" := (bind c (fun x => k))
  (at level 61, c at next level, right associativity) : py_scope.
Notation "c ;; k" := (bind c (fun _ => k))
  (at level 61, right associativity) : py_scope.
Open Scope py_scope.

(** An outcome computed outside the world (a collaborator's answer). *)
Definition lift {A} (r : outcome A) : M A := fun w => (r, w).

Definition emit (e : Event) : M unit :=
  fun w => (Return tt,
            {| session := session w; threads := threads w; log := log w ++ [e] |}).

Definition get_session : M SessionState := fun w => (Return (session w), w).

Definition put_session (s : SessionState) : M unit :=
  fun w => (Return tt, {| session := s; threads := threads w; log := log w |}).

(** [threading.Thread(target=...).start()]. *)
Definition thread_start (t : Task) : M unit :=
  fun w => (Return tt,
            {| session := session w; threads := threads w ++ [t]; log := log w |}).

(** [try: body except Exception as e: handler(e) finally: final]. *)
Definition try_except_finally (body : M unit) (handler : exn -> M unit)
    (final : M unit) : M unit :=
  fun w =>
    let '(r1, w1) := body w in
    let '(r2, w2) :=
      match r1 with
      | Return _ => (r1, w1)
      | Raise e => if is_Exception e then handler e w1 else (r1, w1)
      end in
    match final w2 with
    | (Return _, w3) => (r2, w3)
    | (Raise e, w3) => (Raise e, w3)
    end.

(** [with st.spinner(msg): body]: the spinner is removed also when the body
    raises, and the exception goes on. *)
Definition with_spinner {A} (msg : str) (body : M A) : M A :=
  fun w =>
    let '(r, w1) := (emit (StSpinnerEnter msg) ;; body) w in
    (r, snd (emit StSpinnerExit w1)).

(** *** Writes to [st.session_state] *)

Definition set_recording (b : bool) : M unit :=
  s <- get_session ;;
  put_session {| messages := messages s; recording := b;
                 language := language s;
                 last_voice_input := last_voice_input s |} ;;
  emit (SetRecording b).

Definition set_language (l : Language) : M unit :=
  s <- get_session ;;
  put_session {| messages := messages s; recording := recording s;
                 language := l;
                 last_voice_input := last_voice_input s |} ;;
  emit (SetLanguage l).

Definition set_last_voice_input (v : option str) : M unit :=
  s <- get_session ;;
  put_session {| messages := messages s; recording := recording s;
                 language := language s;
                 last_voice_input := v |} ;;
  emit (SetLastVoiceInput v).

(** [st.session_state.messages.append(m)]. *)
Definition messages_append (m : Message) : M unit :=
  s <- get_session ;;
  put_session {| messages := messages s ++ [m]; recording := recording s;
                 language := language s;
                 last_voice_input := last_voice_input s |} ;;
  emit (MessagesAppend m).

(** *** Streamlit *)

(** [st.rerun()]: asks for a new run and leaves the current one. *)
Definition st_rerun : M unit := emit StRerun ;; raise RerunException.

(** *** The script-run context *)

(** Streamlit resolves [st.session_state] and every [st.] call against the
    script-run context of the calling thread.  The script thread has one: it
    stands for the user's session and page.  A thread made by
    [threading.Thread] has none unless one is attached to it, and [app.py]
    attaches none. *)
Inductive Context := ScriptRun | NoContext.

(** The [AttributeError] of reading an attribute that [st.session_state]
    does not hold. *)
Definition AttributeError_language : exn :=
  Exception (lit "st.session_state has no attribute 'language'").

(** A call that draws on the page ([st.error], [st.success], [st.warning]):
    without a context nothing reaches the page. *)
Definition st_draw (ctx : Context) (e : Event) : M unit :=
  match ctx with
  | ScriptRun => emit e
  | NoContext => ret tt
  end.

(** [with st.spinner(msg): body]. *)
Definition with_spinner_in {A} (ctx : Context) (msg : str) (body : M A) : M A :=
  match ctx with
  | ScriptRun => with_spinner msg body
  | NoContext => body
  end.

(** [st.session_state.language]: without a context the session state is a
    new, empty one, that holds no [language]. *)
Definition read_language (ctx : Context) : M Language :=
  match ctx with
  | ScriptRun => s <- get_session ;; ret (language s)
  | NoContext => raise AttributeError_language
  end.

(** [st.session_state.recording = b] and
    [st.session_state.last_voice_input = v]: without a context the write
    lands in that new session state, which nothing else reads. *)
Definition write_recording (ctx : Context) (b : bool) : M unit :=
  match ctx with
  | ScriptRun => set_recording b
  | NoContext => ret tt
  end.

Definition write_last_voice_input (ctx : Context) (v : option str) : M unit :=
  match ctx with
  | ScriptRun => set_last_voice_input v
  | NoContext => ret tt
  end.

(** [st.rerun()]: without a context there is no run to restart, and only
    the exception is left. *)
Definition st_rerun_in (ctx : Context) : M unit :=
  match ctx with
  | ScriptRun => st_rerun
  | NoContext => raise RerunException
  end.

(** ** The collaborators ([src/voice_input.py], [src/voice_output.py],
    [src/kb_loader.py]), at the interface [app.py] uses *)

Record KnowledgeBase := {
  kb_is_ready : bool;
  (** [kb.query(text, language=...)]: an answer, or an exception. *)
  query : str -> Language -> outcome str
}.

Record VoiceInput := {
  vi_is_ready : bool;
  (** [voice_input.listen(language=..., timeout=...)]: the recognised text,
      [None] or an exception. *)
  listen : Language -> Z -> outcome (option str)
}.

Record VoiceOutput := {
  vo_is_ready : bool;
  (** Audio playback of a text, which may raise. *)
  play : str -> Language -> outcome unit
}.

(** The three collaborators answer [is_ready()]. *)
Class Readiness (T : Type) := is_ready : T -> bool.
#[global] Instance KnowledgeBase_ready : Readiness KnowledgeBase := kb_is_ready.
#[global] Instance VoiceInput_ready : Readiness VoiceInput := vi_is_ready.
#[global] Instance VoiceOutput_ready : Readiness VoiceOutput := vo_is_ready.

(** Truth value of an optional string: [None] and [""] are false. *)
Definition truthy_opt (v : option str) : bool :=
  match v with Some s => truthy s | None => false end.

(** [messages[-1]], when there is one. *)
Fixpoint last_message (ms : list Message) : option Message :=
  match ms with
  | [] => None
  | [m] => Some m
  | _ :: ms' => last_message ms'
  end.

(** What the user does to the widgets during one run of the script. *)
Record Widgets := {
  selectbox : Language;        (* the entry selected in "Select Language" *)
  chat_input : option str      (* the text submitted in the chat box, if any *)
}.

Section App.

(** The module-level objects [kb], [voice_input] and [voice_output]. *)
Variable kb : KnowledgeBase.
Variable voice_input : VoiceInput.
Variable voice_output : VoiceOutput.

(** Lines 65-91, under the context of the thread that runs them. *)
Definition record_audio (ctx : Context) : M unit :=
  if negb (is_ready voice_input) then
    st_draw ctx (StError (lit "Voice input is not available. Please check if the speech recognition models are properly installed.")) ;;
    write_recording ctx false ;;
    st_rerun_in ctx ;;
    ret tt
  else
    try_except_finally
      (with_spinner_in ctx (lit "Listening...")
         (lang <- read_language ctx ;;
          emit (Listen lang 15) ;;
          text <- lift (listen voice_input lang 15) ;;
          match text with
          | Some t =>
              if truthy t then
                st_draw ctx (StSuccess (lit "Recognized: " ++ t)) ;;
                write_last_voice_input ctx (Some t)
              else
                st_draw ctx (StWarning (lit "I didn't hear anything. Please try speaking again."))
          | None =>
              st_draw ctx (StWarning (lit "I didn't hear anything. Please try speaking again."))
          end))
      (fun e =>
         st_draw ctx (StError (lit "Error during voice recognition: " ++ str_of_exn e)) ;;
         emit (TracebackPrintExc e))
      (write_recording ctx false ;;
       st_rerun_in ctx).

(** Lines 55-63. *)
Definition toggle_recording : M unit :=
  s <- get_session ;;
  if recording s then
    set_recording false
  else
    set_recording true ;;
    thread_start Target_record_audio.

(** Line 100: the last message is a user message with this content. *)
Definition is_duplicate (ms : list Message) (user_input : str) : bool :=
  match last_message ms with
  | None => false
  | Some m => PyStr.eqb (role m) (lit "user") && PyStr.eqb (content m) user_input
  end.

(** Lines 94-113. *)
Definition process_input (user_input : str) : M unit :=
  if negb (truthy user_input) || isspace user_input then
    ret tt
  else
    s <- get_session ;;
    if is_duplicate (messages s) user_input then
      ret tt
    else
      messages_append {| role := lit "user"; content := user_input |} ;;
      s1 <- get_session ;;
      emit (KbQuery user_input (language s1)) ;;
      response <- lift (query kb user_input (language s1)) ;;
      messages_append {| role := lit "assistant"; content := response |} ;;
      s2 <- get_session ;;
      thread_start (Target_speak response (language s2)).

(** Lines 118-179: the sidebar. *)
Definition sidebar (ui : Widgets) : M unit :=
  emit (StTitle (lit "OORT DH Africa Assistant")) ;;
  emit (StImage (lit "oort_logo.svg")) ;;
  s <- get_session ;;
  emit (StSelectbox (language s)) ;;
  let selected_language := selectbox ui in
  (if negb (Language_eqb selected_language (language s)) then
     set_language selected_language ;;
     st_rerun
   else ret tt) ;;
  emit StDivider ;;
  emit (StSubheader (lit "About")) ;;
  emit (StWrite (lit "OORT Africa Assistant is a multilingual voice assistant that provides information about OORT DataHub Africa program. It works 100% offline without requiring any cloud services or API keys.")) ;;
  emit StDivider ;;
  emit (StSubheader (lit "System Status")) ;;
  let voice_input_status := is_ready voice_input in
  emit (StStatus VoiceInputC voice_input_status) ;;
  let voice_output_status := is_ready voice_output in
  emit (StStatus VoiceOutputC voice_output_status) ;;
  let kb_status := is_ready kb in
  emit (StStatus KnowledgeBaseC kb_status) ;;
  if negb (voice_input_status && voice_output_status && kb_status) then
    emit (StExpander (lit "Troubleshooting Information")) ;;
    (if negb voice_input_status then
       emit (StWrite (lit "Voice Input Issue: Check if Vosk models are properly installed in the models/stt directory."))
     else ret tt) ;;
    (if negb voice_output_status then
       emit (StWrite (lit "Voice Output Issue: Check if TTS models are properly installed in the models/tts directory."))
     else ret tt) ;;
    (if negb kb_status then
       emit (StWrite (lit "Knowledge Base Issue: Check if the vector database was created properly in the db directory."))
     else ret tt)
  else ret tt.

(** Lines 185-188: a transcript staged by a listen task. *)
Definition process_voice_input : M unit :=
  s <- get_session ;;
  match last_voice_input s with
  | Some voice_text =>
      if truthy voice_text then
        set_last_voice_input None ;;
        process_input voice_text
      else ret tt
  | None => ret tt
  end.

(** Lines 191-193. *)
Fixpoint display_messages (ms : list Message) : M unit :=
  match ms with
  | [] => ret tt
  | message :: ms' =>
      emit (StChatMessage (role message) (content message)) ;;
      display_messages ms'
  end.

(** Lines 116-213. *)
Definition main (ui : Widgets) : M unit :=
  sidebar ui ;;
  emit (StTitle (lit "OORT Africa Assistant")) ;;
  process_voice_input ;;
  s <- get_session ;;
  display_messages (messages s) ;;
  emit StChatInput ;;
  (if truthy_opt (chat_input ui) then
     match chat_input ui with
     | Some user_input => process_input user_input ;; st_rerun
     | None => ret tt
     end
   else ret tt) ;;
  s' <- get_session ;;
  emit (StButton (recording s')) ;;
  if recording s' then emit (StWrite (lit "Listening...")) else ret tt.

(** Modelled from the spec: [VoiceOutput.speak] lives in
    [src/voice_output.py], which is not among the sources.  Section 4.3,
    step 5: the task "checks synthesis readiness, and on success plays
    audio, otherwise fails silently"; section 6: [speak] is "side effect
    only (audio playback), may raise on failure". *)
Definition speak (text : str) (lang : Language) : M unit :=
  if is_ready voice_output then
    emit (Play text lang) ;;
    lift (play voice_output text lang)
  else ret tt.

(** What a started thread runs.  The thread of line 63 has no script-run
    context. *)
Definition target (t : Task) : M unit :=
  match t with
  | Target_record_audio => record_audio NoContext
  | Target_speak text lang => speak text lang
  end.

(** [Thread.run]: nothing comes back to the code that started the thread;
    an exception that leaves the target goes to [threading.excepthook]. *)
Definition thread_run (t : Task) : M unit :=
  fun w =>
    match target t w with
    | (Return _, w') => (Return tt, w')
    | (Raise e, w') => emit (ThreadExcepthook e) w'
    end.

End App.

(** ** Refresh cycles *)

(** One refresh cycle as the user drives it: whether the microphone button
    was clicked (its [on_click] callback runs before the script), and what
    the widgets return during the run. *)
Record Cycle := {
  mic_clicked : bool;
  widgets : Widgets
}.

Section Refresh.

Variable kb : KnowledgeBase.
Variable voice_input : VoiceInput.
Variable voice_output : VoiceOutput.

Definition script (c : Cycle) : M unit :=
  (if mic_clicked c then toggle_recording else ret tt) ;;
  main kb voice_input voice_output (widgets c).

(** The world a cycle leaves behind, however the run ended. *)
Definition run_cycle (w : World) (c : Cycle) : World := snd (script c w).

Definition run_cycles (cs : list Cycle) (w : World) : World :=
  fold_left run_cycle cs w.

End Refresh.

(** ** Reading the trace *)

(** Line 187: the staged transcript is taken (cleared). *)
Definition is_clear (e : Event) : bool :=
  match e with SetLastVoiceInput None => true | _ => false end.

(** Line 81: a transcript is staged. *)
Definition is_stage (e : Event) : bool :=
  match e with SetLastVoiceInput (Some _) => true | _ => false end.

Definition is_recording_reset (e : Event) : bool :=
  match e with SetRecording false => true | _ => false end.

Definition is_rerun (e : Event) : bool :=
  match e with StRerun => true | _ => false end.

Definition is_play (e : Event) : bool :=
  match e with Play _ _ => true | _ => false end.

Definition count (p : Event -> bool) (l : list Event) : nat :=
  List.length (filter p l).

(** A transcript is staged and waiting for the next cycle. *)
Definition pending (w : World) : bool := truthy_opt (last_voice_input (session w)).

(** The entries [process_input] appends. *)
Definition user_message (text : str) : Message :=
  {| role := lit "user"; content := text |}.

Definition assistant_message (response : str) : Message :=
  {| role := lit "assistant"; content := response |}.

(** The session after [ms] was appended to its history. *)
Definition with_appended (s : SessionState) (ms : list Message) : SessionState :=
  {| messages := messages s ++ ms; recording := recording s;
     language := language s; last_voice_input := last_voice_input s |}.

(** The session with its recording flag set to [b]. *)
Definition with_recording (s : SessionState) (b : bool) : SessionState :=
  {| messages := messages s; recording := b;
     language := language s; last_voice_input := last_voice_input s |}.

(** The session with its staged transcript set to [v]. *)
Definition with_last_voice_input (s : SessionState) (v : option str) : SessionState :=
  {| messages := messages s; recording := recording s;
     language := language s; last_voice_input := v |}.

(** The messages of [record_audio]. *)
Definition not_available_msg : str :=
  lit "Voice input is not available. Please check if the speech recognition models are properly installed.".

Definition nothing_heard_msg : str :=
  lit "I didn't hear anything. Please try speaking again.".

(** ** Sample collaborators and inputs *)

Definition sample_kb : KnowledgeBase :=
  {| kb_is_ready := true;
     query := fun _ _ => Return (lit "The program starts in January.") |}.

Definition broken_kb : KnowledgeBase :=
  {| kb_is_ready := false;
     query := fun _ _ => Raise (Exception (lit "vector database missing")) |}.

Definition silent_voice_input : VoiceInput :=
  {| vi_is_ready := true; listen := fun _ _ => Return None |}.

Definition sample_voice_output : VoiceOutput :=
  {| vo_is_ready := true;
     play := fun _ _ => Raise (Exception (lit "audio device busy")) |}.

Definition question : str := lit "When does the program start?".

Definition staged_world : World :=
  {| session := {| messages := []; recording := false; language := english;
                   last_voice_input := Some question |};
     threads := []; log := [] |}.

(** A history whose last entry is the user's question. *)
Definition asked_world : World :=
  {| session := with_appended initial_session [user_message question];
     threads := []; log := [] |}.

Definition idle_cycle : Cycle :=
  {| mic_clicked := false;
     widgets := {| selectbox := english; chat_input := None |} |}.

(** ** The ledger of staged transcripts *)

(** From [w] to [w'] the trace only grew, nothing was staged, and every
    clearing of the staged transcript is paid for: a transcript that was
    waiting in [w] is either still waiting in [w'] or was taken once. *)
Definition ledger (w w' : World) : Prop :=
  exists evs,
    log w' = log w ++ evs /\
    count is_stage evs = 0 /\
    count is_clear evs + Nat.b2n (pending w') = Nat.b2n (pending w).

(** A computation respects the ledger from every world, however it ends. *)
Definition keeps_ledger {A} (c : M A) : Prop :=
  forall w, ledger w (snd (c w)).

(** The world of line 188: the staged transcript has just been cleared. *)
Definition cleared (w : World) : World :=
  {| session := with_last_voice_input (session w) None;
     threads := threads w;
     log := log w ++ [SetLastVoiceInput None] |}.

(** ** A run of the script as a sequence of steps *)

(** The steps a refresh cycle is made of: an effect on the trace, the write
    of line 138, the clearing of line 187, a call of [process_input], and
    the [on_click] callback. *)
Inductive Step :=
| SEmit (e : Event)
| SSetLanguage (l : Language)
| SClear
| SProcess (text : str)
| SToggle.

Definition apply_step (kb : KnowledgeBase) (s : Step) (w : World) : World :=
  match s with
  | SEmit e => snd (emit e w)
  | SSetLanguage l => snd (set_language l w)
  | SClear => snd (set_last_voice_input None w)
  | SProcess text => snd (process_input kb text w)
  | SToggle => snd (toggle_recording w)
  end.

Definition run_steps (kb : KnowledgeBase) (steps : list Step) (w : World) : World :=
  fold_left (fun w s => apply_step kb s w) steps w.

(** From every world, what the computation leaves behind is reached by
    steps that all satisfy [P]. *)
Definition stepwise (kb : KnowledgeBase) (P : Step -> Prop) {A} (c : M A) : Prop :=
  forall w, exists steps, snd (c w) = run_steps kb steps w /\ Forall P steps.

(** The computation never returns normally. *)
Definition diverts {A} (c : M A) : Prop :=
  forall w, exists e, fst (c w) = Raise e.

(** The Streamlit calls of [main]. *)
Definition is_display (e : Event) : bool :=
  match e with
  | StWrite _ | StTitle _ | StSubheader _ | StImage _ | StDivider
  | StSelectbox _ | StStatus _ _ | StExpander _ | StChatMessage _ _
  | StChatInput | StButton _ | StRerun => true
  | _ => false
  end.

Definition is_button (e : Event) : bool :=
  match e with StButton _ => true | _ => false end.

Definition is_listen (e : Event) : bool :=
  match e with Listen _ _ => true | _ => false end.

Definition is_kb_query (e : Event) : bool :=
  match e with KbQuery _ _ => true | _ => false end.

Definition is_expander (e : Event) : bool :=
  match e with StExpander _ => true | _ => false end.

Definition is_write (e : Event) : bool :=
  match e with StWrite _ => true | _ => false end.

(** The steps of [main] under the widget values [ui]. *)
Definition main_step (ui : Widgets) (s : Step) : Prop :=
  match s with
  | SEmit e => is_display e = true
  | SSetLanguage l => l = selectbox ui
  | SClear => True
  | SProcess _ => True
  | SToggle => False
  end.

(** The steps of [main] that do not draw the microphone button. *)
Definition main_step_no_button (ui : Widgets) (s : Step) : Prop :=
  match s with
  | SEmit e => is_display e = true /\ is_button e = false
  | _ => main_step ui s
  end.

(** The steps of a whole cycle: the callback runs when the button was
    clicked. *)
Definition script_step (c : Cycle) (s : Step) : Prop :=
  match s with
  | SToggle => mic_clicked c = true
  | _ => main_step (widgets c) s
  end.

(** ** Counting questions, answers, queries and speaking threads *)

Definition is_user (m : Message) : bool := PyStr.eqb (role m) (lit "user").

Definition is_assistant (m : Message) : bool :=
  PyStr.eqb (role m) (lit "assistant").

Definition is_speak (t : Task) : bool :=
  match t with Target_speak _ _ => true | Target_record_audio => false end.

Definition is_listen_task (t : Task) : bool :=
  match t with Target_record_audio => true | Target_speak _ _ => false end.

(** User messages and assistant messages in the history, queries made so
    far, speaking threads and listening threads started so far. *)
Definition asked (w : World) : nat :=
  List.length (filter is_user (messages (session w))).

Definition answers (w : World) : nat :=
  List.length (filter is_assistant (messages (session w))).

Definition queried (w : World) : nat := count is_kb_query (log w).

Definition spoken (w : World) : nat :=
  List.length (filter is_speak (threads w)).

Definition listeners (w : World) : nat :=
  List.length (filter is_listen_task (threads w)).

(** From [w] to [w'] the history only grew at its end, every new answer has
    its speaking thread, every new user message its query, and there are no
    more new answers than new user messages. *)
Definition story (w w' : World) : Prop :=
  (exists ms, messages (session w') = messages (session w) ++ ms) /\
  spoken w' + answers w = spoken w + answers w' /\
  queried w' + asked w = queried w + asked w' /\
  answers w' + asked w <= answers w + asked w'.

(** The session with its language set to [l]. *)
Definition with_language (s : SessionState) (l : Language) : SessionState :=
  {| messages := messages s; recording := recording s;
     language := l; last_voice_input := last_voice_input s |}.

(** The worlds [process_input] leaves behind when it goes past line 101:
    with the answer, or stopped by the query. *)
Definition answered_world (text response : str) (w : World) : World :=
  {| session := with_appended (session w)
                  [user_message text; assistant_message response];
     threads := threads w ++ [Target_speak response (language (session w))];
     log := log w ++ [MessagesAppend (user_message text);
                      KbQuery text (language (session w));
                      MessagesAppend (assistant_message response)] |}.

Definition unanswered_world (text : str) (w : World) : World :=
  {| session := with_appended (session w) [user_message text];
     threads := threads w;
     log := log w ++ [MessagesAppend (user_message text);
                      KbQuery text (language (session w))] |}.

(** More sample inputs. *)
Definition heard_voice_input : VoiceInput :=
  {| vi_is_ready := true; listen := fun _ _ => Return (Some question) |}.

Definition french_cycle : Cycle :=
  {| mic_clicked := false;
     widgets := {| selectbox := french; chat_input := None |} |}.

Definition asking_cycle : Cycle :=
  {| mic_clicked := false;
     widgets := {| selectbox := english; chat_input := Some question |} |}.

(** The world [w] with [evs] added to its trace. *)
Definition logged (w : World) (evs : list Event) : World :=
  {| session := session w; threads := threads w; log := log w ++ evs |}.

(** Lines 192-193: the chat bubble of a message. *)
Definition chat_event (m : Message) : Event :=
  StChatMessage (role m) (content m).

(** From [w] to [w'] the recording flag was kept and no listening thread
    was started. *)
Definition no_recording_change (w w' : World) : Prop :=
  recording (session w') = recording (session w) /\
  listeners w' = listeners w.

(** From [w] to [w'] the language was kept or set to [sel]. *)
Definition language_kept_or (sel : Language) (w w' : World) : Prop :=
  language (session w') = language (session w) \/
  language (session w') = sel.

(** From [w] to [w'] the trace grew by events that do not draw the
    microphone button. *)
Definition no_button_drawn (w w' : World) : Prop :=
  exists evs, log w' = log w ++ evs /\ count is_button evs = 0.

Definition is_chat_message (e : Event) : bool :=
  match e with StChatMessage _ _ => true | _ => false end.

(** Every assistant message of the history comes right after a user
    message; [after_user] tells whether the message before [ms] is one. *)
Fixpoint well_paired (after_user : bool) (ms : list Message) : bool :=
  match ms with
  | [] => true
  | m :: ms' =>
      if is_assistant m then after_user && well_paired false ms'
      else well_paired (is_user m) ms'
  end.

(** From [w] to [w'] a well-paired history stays well paired. *)
Definition keeps_pairing (w w' : World) : Prop :=
  well_paired false (messages (session w)) = true ->
  well_paired false (messages (session w')) = true.

(** What goes to the error output of the process and not to the page. *)
Definition is_stderr (e : Event) : bool :=
  match e with TracebackPrintExc _ | ThreadExcepthook _ => true | _ => false end.

(** Nothing is submitted in the chat box during the cycle. *)
Definition no_text_typed (c : Cycle) : Prop :=
  truthy_opt (chat_input (widgets c)) = false.

(** Lines 190-213: [main] from the display of the history on. *)
Definition main_from_display (kb : KnowledgeBase) (ui : Widgets) : M unit :=
  s <- get_session ;;
  display_messages (messages s) ;;
  emit StChatInput ;;
  (if truthy_opt (chat_input ui) then
     match chat_input ui with
     | Some user_input => process_input kb user_input ;; st_rerun
     | None => ret tt
     end
   else ret tt) ;;
  s' <- get_session ;;
  emit (StButton (recording s')) ;;
  if recording s' then emit (StWrite (lit "Listening...")) else ret tt.

(** A computation keeps the relation [R] from every world, however it
    ends. *)
Definition preserves (R : World -> World -> Prop) {A} (c : M A) : Prop :=
  forall w, R w (snd (c w)).

(** From [w] to [w'] queries and user messages were only added, and at most
    one of each, paid for by a transcript that was waiting in [w] and no
    longer waits in [w']. *)
Definition voice_ledger (w w' : World) : Prop :=
  queried w <= queried w' /\
  asked w <= asked w' /\
  queried w' + Nat.b2n (pending w') <= queried w + Nat.b2n (pending w) /\
  asked w' + Nat.b2n (pending w') <= asked w + Nat.b2n (pending w).

(** A click on the microphone button, refresh cycles, the run of the
    thread the click started, and refresh cycles again. *)
Definition after_click (kb : KnowledgeBase) (vi : VoiceInput) (vo : VoiceOutput)
    (cs1 cs2 : list Cycle) (w : World) : World :=
  run_cycles kb vi vo cs2
    (snd (thread_run vi vo Target_record_audio
            (run_cycles kb vi vo cs1 (snd (toggle_recording w))))).

(** * Properties *)

(** ** Strings and histories *)

Lemma eqb_refl (a : str) : PyStr.eqb a a = true.
Proof.
  induction a as [|x a IH]; simpl; [reflexivity|].
  now rewrite N.eqb_refl, IH.
Qed.

Lemma eqb_eq (a b : str) : PyStr.eqb a b = true <-> a = b.
Proof.
  split; [|intros ->; apply eqb_refl].
  revert b; induction a as [|x a IH]; intros [|y b]; simpl; try discriminate; auto.
  intros H. apply andb_true_iff in H as [Hx Hab].
  apply N.eqb_eq in Hx. f_equal; auto.
Qed.

Lemma isspace_all_whitespace (s : str) :
  isspace s = true <-> s <> [] /\ Forall (fun c => is_whitespace c = true) s.
Proof.
  unfold isspace. rewrite andb_true_iff, forallb_forall, Forall_forall.
  destruct s; simpl; intuition congruence.
Qed.

Lemma last_message_snoc (ms : list Message) (m : Message) :
  last_message (ms ++ [m]) = Some m.
Proof.
  induction ms as [|a ms IH]; simpl; [reflexivity|].
  rewrite IH. destruct (ms ++ [m]) eqn:E; [|reflexivity].
  now destruct ms.
Qed.

(** The test of line 100, read as the sentence it checks. *)
Lemma is_duplicate_true (ms : list Message) (text : str) :
  is_duplicate ms text = true <->
  exists m, last_message ms = Some m /\ role m = lit "user" /\ content m = text.
Proof.
  unfold is_duplicate. destruct (last_message ms) as [m|].
  - rewrite andb_true_iff, !eqb_eq. split.
    + intros [Hr Hc]. now exists m.
    + intros (m' & [= <-] & Hr & Hc). now split.
  - split; [discriminate|]. now intros (m & [=] & _).
Qed.

Lemma is_duplicate_false (ms : list Message) (text : str) :
  is_duplicate ms text = false <->
  forall m, last_message ms = Some m -> role m = lit "user" -> content m <> text.
Proof.
  split.
  - intros H m Hm Hr Hc.
    assert (is_duplicate ms text = true) by (apply is_duplicate_true; eauto).
    congruence.
  - intros H. destruct (is_duplicate ms text) eqn:E; [|reflexivity].
    apply is_duplicate_true in E as (m & Hm & Hr & Hc).
    now destruct (H m Hm Hr).
Qed.

(** A submission passes the test of line 96 when it is neither empty nor
    all whitespace. *)
Lemma accepted_text (text : str) :
  text <> [] -> isspace text = false ->
  negb (truthy text) || isspace text = false.
Proof.
  intros Hne ->. destruct text; [congruence|reflexivity].
Qed.

(** ** The input pipeline *)

Section Pipeline.

Variable kb : KnowledgeBase.

(** An accepted, non-duplicate submission whose query returns. *)
Lemma process_input_answered (text response : str) (w : World) :
  negb (truthy text) || isspace text = false ->
  is_duplicate (messages (session w)) text = false ->
  query kb text (language (session w)) = Return response ->
  process_input kb text w =
    (Return tt,
     {| session := with_appended (session w)
                     [user_message text; assistant_message response];
        threads := threads w ++ [Target_speak response (language (session w))];
        log := log w ++ [MessagesAppend (user_message text);
                         KbQuery text (language (session w));
                         MessagesAppend (assistant_message response)] |}).
Proof.
  intros Hok Hdup Hq. unfold process_input. rewrite Hok.
  cbv [bind get_session]. rewrite Hdup.
  cbv [messages_append bind get_session put_session emit lift thread_start].
  cbn. rewrite Hq. unfold with_appended.
  now rewrite <- !app_assoc.
Qed.

(** An accepted, non-duplicate submission whose query raises. *)
Lemma process_input_query_raises (text : str) (e : exn) (w : World) :
  negb (truthy text) || isspace text = false ->
  is_duplicate (messages (session w)) text = false ->
  query kb text (language (session w)) = Raise e ->
  process_input kb text w =
    (Raise e,
     {| session := with_appended (session w) [user_message text];
        threads := threads w;
        log := log w ++ [MessagesAppend (user_message text);
                         KbQuery text (language (session w))] |}).
Proof.
  intros Hok Hdup Hq. unfold process_input. rewrite Hok.
  cbv [bind get_session]. rewrite Hdup.
  cbv [messages_append bind get_session put_session emit lift].
  cbn. rewrite Hq. unfold with_appended.
  now rewrite <- !app_assoc.
Qed.

End Pipeline.

(** C1: a submission that is not empty, not all whitespace and not the
    content of a most recent user message makes [process_input] append
    exactly two messages, the user's text and then the knowledge base's
    answer for this text and the current language, and start exactly one
    thread that speaks this answer in the current language. *)
Theorem C1_process_input_appends_two_and_dispatches_one
    (kb : KnowledgeBase) (text response : str) (w : World) :
  text <> [] ->
  isspace text = false ->
  (forall m, last_message (messages (session w)) = Some m ->
             role m = lit "user" -> content m <> text) ->
  query kb text (language (session w)) = Return response ->
  process_input kb text w =
    (Return tt,
     {| session := with_appended (session w)
                     [user_message text; assistant_message response];
        threads := threads w ++ [Target_speak response (language (session w))];
        log := log w ++ [MessagesAppend (user_message text);
                         KbQuery text (language (session w));
                         MessagesAppend (assistant_message response)] |}).
Proof.
  intros Hne Hsp Hlast Hq.
  apply process_input_answered; auto using accepted_text.
  now apply is_duplicate_false.
Qed.

Lemma C1_witness :
  question <> [] /\
  isspace question = false /\
  process_input sample_kb question initial_world =
    (Return tt,
     {| session := with_appended initial_session
                     [user_message question;
                      assistant_message (lit "The program starts in January.")];
        threads := [Target_speak (lit "The program starts in January.") english];
        log := [MessagesAppend (user_message question);
                KbQuery question english;
                MessagesAppend
                  (assistant_message (lit "The program starts in January."))] |}).
Proof.
  split; [vm_compute; discriminate|].
  split; [reflexivity|].
  apply (C1_process_input_appends_two_and_dispatches_one
           sample_kb (text := question) initial_world).
  - vm_compute; discriminate.
  - reflexivity.
  - simpl. intros m Hm. discriminate Hm.
  - reflexivity.
Defined.

(** C6: when the most recent message is a user message with the same content
    as the input, [process_input] does nothing: the world (history, flags,
    started threads, trace of queries and messages) is the one it was given,
    and the call returns normally. *)
Theorem C6_process_input_duplicate_is_noop
    (kb : KnowledgeBase) (text : str) (w : World) :
  (exists m, last_message (messages (session w)) = Some m /\
             role m = lit "user" /\ content m = text) ->
  process_input kb text w = (Return tt, w).
Proof.
  intros Hdup. apply is_duplicate_true in Hdup.
  unfold process_input.
  destruct (negb (truthy text) || isspace text); [reflexivity|].
  unfold bind, get_session. now rewrite Hdup.
Qed.

Lemma C6_witness :
  process_input sample_kb question asked_world = (Return tt, asked_world).
Proof.
  apply (C6_process_input_duplicate_is_noop sample_kb (text := question) asked_world).
  exists (user_message question). repeat split; reflexivity.
Defined.

(** C7: on an empty or all-whitespace input [process_input] returns normally
    and leaves the whole world as it was: messages, recording flag, language
    and staged transcript, the started threads and the trace. *)
Theorem C7_process_input_blank_is_noop
    (kb : KnowledgeBase) (text : str) (w : World) :
  text = [] \/ isspace text = true ->
  process_input kb text w = (Return tt, w).
Proof.
  intros [-> | Hsp]; unfold process_input; [reflexivity|].
  now rewrite Hsp, orb_true_r.
Qed.

Lemma C7_witness :
  isspace (lit "   ") = true /\
  process_input sample_kb (lit "   ") staged_world = (Return tt, staged_world).
Proof.
  split; [reflexivity|].
  apply (C7_process_input_blank_is_noop sample_kb (text := lit "   ")).
  right. reflexivity.
Defined.

(** C10: when the query raises after the two checks have passed, the user
    message is already in the history, no assistant message follows, no
    thread is started, and the exception leaves [process_input]. *)
Theorem C10_process_input_not_atomic_when_query_raises
    (kb : KnowledgeBase) (text : str) (e : exn) (w : World) :
  text <> [] ->
  isspace text = false ->
  (forall m, last_message (messages (session w)) = Some m ->
             role m = lit "user" -> content m <> text) ->
  query kb text (language (session w)) = Raise e ->
  process_input kb text w =
    (Raise e,
     {| session := with_appended (session w) [user_message text];
        threads := threads w;
        log := log w ++ [MessagesAppend (user_message text);
                         KbQuery text (language (session w))] |}).
Proof.
  intros Hne Hsp Hlast Hq.
  apply process_input_query_raises; auto using accepted_text.
  now apply is_duplicate_false.
Qed.

Lemma C10_witness :
  process_input broken_kb question initial_world =
    (Raise (Exception (lit "vector database missing")),
     {| session := with_appended initial_session [user_message question];
        threads := [];
        log := [MessagesAppend (user_message question);
                KbQuery question english] |}).
Proof.
  apply (C10_process_input_not_atomic_when_query_raises
           broken_kb (text := question) initial_world).
  - vm_compute; discriminate.
  - reflexivity.
  - simpl. intros m Hm. discriminate Hm.
  - reflexivity.
Defined.

(** The same accepted text submitted twice, each call running to its end:
    after the first call the last message is the assistant's, so the test of
    line 100 lets the second call through. *)
Lemma process_input_resubmitted
    (kb : KnowledgeBase) (text response : str) (w : World) :
  negb (truthy text) || isspace text = false ->
  is_duplicate (messages (session w)) text = false ->
  query kb text (language (session w)) = Return response ->
  exists w1 w2,
    process_input kb text w = (Return tt, w1) /\
    process_input kb text w1 = (Return tt, w2) /\
    messages (session w2) =
      messages (session w1) ++ [user_message text; assistant_message response] /\
    threads w2 = threads w1 ++ [Target_speak response (language (session w))].
Proof.
  intros Hok Hdup Hq.
  eexists; eexists. split; [eapply process_input_answered; eassumption|].
  split; [|split].
  - eapply process_input_answered; simpl; eauto.
    unfold is_duplicate.
    change [user_message text; assistant_message response]
      with ([user_message text] ++ [assistant_message response]).
    rewrite app_assoc, last_message_snoc. reflexivity.
  - reflexivity.
  - reflexivity.
Qed.

(** C4: the question submitted twice in a row from a new session.  The
    second call is not rejected: it appends the question and the answer a
    second time and starts a second speaking thread. *)
Theorem C4_second_identical_submission_is_processed_again :
  exists w1 w2,
    process_input sample_kb question initial_world = (Return tt, w1) /\
    process_input sample_kb question w1 = (Return tt, w2) /\
    List.length (messages (session w1)) = 2 /\
    List.length (threads w1) = 1 /\
    messages (session w2) =
      messages (session w1)
        ++ [user_message question;
            assistant_message (lit "The program starts in January.")] /\
    threads w2 =
      threads w1 ++ [Target_speak (lit "The program starts in January.") english].
Proof.
  exists (snd (process_input sample_kb question initial_world)).
  exists (snd (process_input sample_kb question
                 (snd (process_input sample_kb question initial_world)))).
  vm_compute. repeat split; reflexivity.
Qed.

(** ** Recording *)

(** C9: [toggle_recording] while recording clears the flag and returns, the
    started threads being left as they are (none started, none removed);
    while not recording it sets the flag and starts exactly one thread, whose
    target is [record_audio]. *)
Theorem C9_toggle_recording (w : World) :
  toggle_recording w =
    (Return tt,
     if recording (session w) then
       {| session := with_recording (session w) false;
          threads := threads w;
          log := log w ++ [SetRecording false] |}
     else
       {| session := with_recording (session w) true;
          threads := threads w ++ [Target_record_audio];
          log := log w ++ [SetRecording true] |}).
Proof.
  unfold toggle_recording, bind, get_session.
  destruct (recording (session w)); reflexivity.
Qed.

(** [record_audio] when it is called under a script-run context. *)
Section ListenTask.

Variable voice_input : VoiceInput.
Variable w : World.

(** The pre-check of line 67 fails. *)
Lemma record_audio_unready :
  is_ready voice_input = false ->
  record_audio voice_input ScriptRun w =
    (Raise RerunException,
     {| session := with_recording (session w) false;
        threads := threads w;
        log := log w ++ [StError not_available_msg; SetRecording false; StRerun] |}).
Proof.
  intros Hr. unfold record_audio. rewrite Hr. cbn.
  now rewrite <- !app_assoc.
Qed.

(** Recognition returns a text that is not empty. *)
Lemma record_audio_heard (t : str) :
  is_ready voice_input = true ->
  listen voice_input (language (session w)) 15 = Return (Some t) ->
  truthy t = true ->
  record_audio voice_input ScriptRun w =
    (Raise RerunException,
     {| session := with_recording (with_last_voice_input (session w) (Some t)) false;
        threads := threads w;
        log := log w ++ [StSpinnerEnter (lit "Listening..."); Listen (language (session w)) 15;
                         StSuccess (lit "Recognized: " ++ t);
                         SetLastVoiceInput (Some t);
                         StSpinnerExit; SetRecording false; StRerun] |}).
Proof.
  intros Hr Hl Ht. unfold record_audio. rewrite Hr.
  cbv [negb try_except_finally with_spinner_in with_spinner read_language
       st_draw bind get_session emit lift ret].
  cbn [session threads log]. rewrite Hl, Ht. cbn.
  now rewrite <- !app_assoc.
Qed.

(** Recognition returns [None] or the empty string. *)
Lemma record_audio_silent (r : option str) :
  is_ready voice_input = true ->
  listen voice_input (language (session w)) 15 = Return r ->
  truthy_opt r = false ->
  record_audio voice_input ScriptRun w =
    (Raise RerunException,
     {| session := with_recording (session w) false;
        threads := threads w;
        log := log w ++ [StSpinnerEnter (lit "Listening..."); Listen (language (session w)) 15;
                         StWarning nothing_heard_msg;
                         StSpinnerExit; SetRecording false; StRerun] |}).
Proof.
  intros Hr Hl Ht. unfold record_audio. rewrite Hr.
  cbv [negb try_except_finally with_spinner_in with_spinner read_language
       st_draw bind get_session emit lift ret].
  cbn [session threads log]. rewrite Hl.
  destruct r as [t|]; simpl in Ht; [rewrite Ht|]; cbn;
    now rewrite <- !app_assoc.
Qed.

(** Recognition raises an [Exception]: it is reported, not propagated. *)
Lemma record_audio_error (e : exn) :
  is_ready voice_input = true ->
  listen voice_input (language (session w)) 15 = Raise e ->
  is_Exception e = true ->
  record_audio voice_input ScriptRun w =
    (Raise RerunException,
     {| session := with_recording (session w) false;
        threads := threads w;
        log := log w ++ [StSpinnerEnter (lit "Listening..."); Listen (language (session w)) 15;
                         StSpinnerExit;
                         StError (lit "Error during voice recognition: " ++ str_of_exn e);
                         TracebackPrintExc e;
                         SetRecording false; StRerun] |}).
Proof.
  intros Hr Hl He. unfold record_audio. rewrite Hr.
  cbv [negb try_except_finally with_spinner_in with_spinner read_language
       st_draw bind get_session emit lift ret].
  cbn [session threads log]. rewrite Hl. cbn [snd]. rewrite He. cbn.
  now rewrite <- !app_assoc.
Qed.

(** Recognition is interrupted by something that is not an [Exception]:
    the handler is skipped, the [finally] block still runs. *)
Lemma record_audio_interrupted (e : exn) :
  is_ready voice_input = true ->
  listen voice_input (language (session w)) 15 = Raise e ->
  is_Exception e = false ->
  record_audio voice_input ScriptRun w =
    (Raise RerunException,
     {| session := with_recording (session w) false;
        threads := threads w;
        log := log w ++ [StSpinnerEnter (lit "Listening..."); Listen (language (session w)) 15;
                         StSpinnerExit; SetRecording false; StRerun] |}).
Proof.
  intros Hr Hl He. unfold record_audio. rewrite Hr.
  cbv [negb try_except_finally with_spinner_in with_spinner read_language
       st_draw bind get_session emit lift ret].
  cbn [session threads log]. rewrite Hl. cbn [snd]. rewrite He. cbn.
  now rewrite <- !app_assoc.
Qed.

End ListenTask.

(** What one call of [toggle_recording] does, by the value of the flag. *)
Lemma toggle_recording_run (w : World) :
  toggle_recording w =
    (Return tt,
     if recording (session w) then
       {| session := with_recording (session w) false;
          threads := threads w;
          log := log w ++ [SetRecording false] |}
     else
       {| session := with_recording (session w) true;
          threads := threads w ++ [Target_record_audio];
          log := log w ++ [SetRecording true] |}).
Proof.
  unfold toggle_recording, bind, get_session.
  destruct (recording (session w)); reflexivity.
Qed.

(** The listen task in a thread without script-run context: the pre-check
    passes or fails as before, but reading the language fails, so
    recognition is not reached; the handler and the [finally] block run
    against the thread's own empty session state. *)
Lemma record_audio_no_context (vi : VoiceInput) (w : World) :
  record_audio vi NoContext w =
    (Raise RerunException,
     if is_ready vi then logged w [TracebackPrintExc AttributeError_language]
     else w).
Proof.
  unfold record_audio. destruct (is_ready vi); reflexivity.
Qed.

(** The run of the thread of line 63. *)
Lemma listen_thread_run (vi : VoiceInput) (vo : VoiceOutput) (w : World) :
  thread_run vi vo Target_record_audio w =
    (Return tt,
     logged w (if is_ready vi
               then [TracebackPrintExc AttributeError_language;
                     ThreadExcepthook RerunException]
               else [ThreadExcepthook RerunException])).
Proof.
  unfold thread_run, target. rewrite record_audio_no_context.
  destruct (is_ready vi); unfold emit, logged; simpl;
    now rewrite <- ?app_assoc.
Qed.

(** C3: the cleanup of [record_audio] does not reach the session.  The
    thread started by [toggle_recording] runs without script-run context:
    its run leaves the session as it found it, with no write of the
    recording flag and no rerun request in the trace.  After a click on an
    idle session and the run of the thread, the recording flag is therefore
    still set. *)
Theorem C3_listen_thread_leaves_recording_set
    (voice_input : VoiceInput) (voice_output : VoiceOutput) (w : World) :
  (exists evs,
     thread_run voice_input voice_output Target_record_audio w =
       (Return tt,
        {| session := session w; threads := threads w; log := log w ++ evs |}) /\
     count is_recording_reset evs = 0 /\
     count is_rerun evs = 0) /\
  recording
    (session (snd ((toggle_recording ;;
                    thread_run voice_input voice_output Target_record_audio) w))) =
    negb (recording (session w)) /\
  recording
    (session (snd ((toggle_recording ;;
                    thread_run heard_voice_input sample_voice_output
                      Target_record_audio) initial_world))) = true.
Proof.
  split; [|split].
  - rewrite listen_thread_run. eexists. split; [reflexivity|].
    destruct (is_ready voice_input); split; reflexivity.
  - unfold bind. rewrite toggle_recording_run, listen_thread_run.
    now destruct (recording (session w)).
  - reflexivity.
Qed.


(** ** The speaking thread *)

(** C5: the thread started by [process_input] plays audio only when
    synthesis is ready, and whatever playback does (also when it raises)
    nothing reaches the code that started the thread: the run of the thread
    returns, the session (and so the history with the answer) and the
    started threads are unchanged. *)
Theorem C5_speak_thread_fails_silently
    (voice_input : VoiceInput) (voice_output : VoiceOutput)
    (text : str) (lang : Language) (w : World) :
  exists evs,
    thread_run voice_input voice_output (Target_speak text lang) w =
      (Return tt,
       {| session := session w; threads := threads w; log := log w ++ evs |}) /\
    count is_play evs = (if is_ready voice_output then 1 else 0) /\
    count is_rerun evs = 0.
Proof.
  unfold thread_run, target, speak.
  destruct (is_ready voice_output).
  - cbv [bind emit lift]. cbn [session threads log].
    destruct (play voice_output text lang) as [[]|e].
    + exists [Play text lang]. repeat split; reflexivity.
    + exists [Play text lang; ThreadExcepthook e].
      rewrite <- app_assoc. repeat split; reflexivity.
  - exists []. rewrite app_nil_r. destruct w; repeat split; reflexivity.
Qed.

(** ** Refresh cycles and the staged transcript *)

Lemma count_app (p : Event -> bool) (a b : list Event) :
  count p (a ++ b) = count p a + count p b.
Proof. unfold count. now rewrite filter_app, length_app. Qed.

Lemma ledger_refl (w : World) : ledger w w.
Proof. exists []. now rewrite app_nil_r. Qed.

Lemma ledger_trans (w1 w2 w3 : World) :
  ledger w1 w2 -> ledger w2 w3 -> ledger w1 w3.
Proof.
  intros (e1 & L1 & S1 & C1) (e2 & L2 & S2 & C2).
  exists (e1 ++ e2). rewrite !count_app, L2, L1, app_assoc.
  repeat split; lia.
Qed.

(** A step that leaves the staged transcript alone and logs at most events
    that neither stage nor clear. *)
Lemma ledger_quiet (w w' : World) (evs : list Event) :
  log w' = log w ++ evs ->
  forallb (fun e => negb (is_stage e) && negb (is_clear e)) evs = true ->
  last_voice_input (session w') = last_voice_input (session w) ->
  ledger w w'.
Proof.
  intros Hl Hq Hv. exists evs. split; [assumption|].
  assert (count is_stage evs = 0 /\ count is_clear evs = 0) as [-> ->].
  { clear Hl. unfold count. induction evs as [|e evs IH]; [now split|].
    simpl in Hq. apply andb_true_iff in Hq as [He Hq].
    apply andb_true_iff in He as [Hs Hc].
    apply negb_true_iff in Hs, Hc. simpl. rewrite Hs, Hc. auto. }
  unfold pending. now rewrite Hv.
Qed.

Create HintDb ledger.

Lemma keeps_ret {A} (a : A) : keeps_ledger (ret a).
Proof. intros w. apply ledger_refl. Qed.

Lemma keeps_raise {A} (e : exn) : keeps_ledger (@raise A e).
Proof. intros w. apply ledger_refl. Qed.

Lemma keeps_lift {A} (r : outcome A) : keeps_ledger (lift r).
Proof. intros w. apply ledger_refl. Qed.

Lemma keeps_get_session : keeps_ledger get_session.
Proof. intros w. apply ledger_refl. Qed.

Lemma keeps_bind {A B} (c : M A) (k : A -> M B) :
  keeps_ledger c -> (forall a, keeps_ledger (k a)) -> keeps_ledger (bind c k).
Proof.
  intros Hc Hk w. unfold bind. specialize (Hc w).
  destruct (c w) as [[a|e] w1]; simpl in *; [|assumption].
  eapply ledger_trans; [eassumption|apply Hk].
Qed.

Lemma keeps_emit (e : Event) :
  is_stage e = false -> is_clear e = false -> keeps_ledger (emit e).
Proof.
  intros Hs Hc w. apply ledger_quiet with (evs := [e]); simpl; auto.
  now rewrite Hs, Hc.
Qed.

Lemma keeps_thread_start (t : Task) : keeps_ledger (thread_start t).
Proof. intros w. now apply ledger_quiet with (evs := []); simpl; rewrite ?app_nil_r. Qed.

Lemma keeps_set_recording (b : bool) : keeps_ledger (set_recording b).
Proof. intros w. now apply ledger_quiet with (evs := [SetRecording b]). Qed.

Lemma keeps_set_language (l : Language) : keeps_ledger (set_language l).
Proof. intros w. now apply ledger_quiet with (evs := [SetLanguage l]). Qed.

Lemma keeps_messages_append (m : Message) : keeps_ledger (messages_append m).
Proof. intros w. now apply ledger_quiet with (evs := [MessagesAppend m]). Qed.

#[local] Hint Resolve keeps_ret keeps_raise keeps_lift keeps_get_session
  keeps_thread_start keeps_set_recording keeps_set_language
  keeps_messages_append : ledger.
#[local] Hint Extern 1 (keeps_ledger (emit _)) =>
  apply keeps_emit; reflexivity : ledger.
#[local] Hint Extern 2 (keeps_ledger (bind _ _)) =>
  apply keeps_bind; [|intros ?] : ledger.
#[local] Hint Extern 3 (keeps_ledger (if ?b then _ else _)) =>
  destruct b : ledger.

Lemma keeps_st_rerun : keeps_ledger st_rerun.
Proof. unfold st_rerun. auto with ledger. Qed.
#[local] Hint Resolve keeps_st_rerun : ledger.

Lemma keeps_toggle_recording : keeps_ledger toggle_recording.
Proof. unfold toggle_recording. auto 6 with ledger. Qed.

Lemma keeps_process_input (kb : KnowledgeBase) (text : str) :
  keeps_ledger (process_input kb text).
Proof. unfold process_input. auto 12 with ledger. Qed.
#[local] Hint Resolve keeps_toggle_recording keeps_process_input : ledger.

Lemma keeps_display_messages (ms : list Message) :
  keeps_ledger (display_messages ms).
Proof. induction ms as [|m ms IH]; simpl; auto with ledger. Qed.
#[local] Hint Resolve keeps_display_messages : ledger.

Lemma keeps_sidebar (kb : KnowledgeBase) (vi : VoiceInput) (vo : VoiceOutput)
    (ui : Widgets) :
  keeps_ledger (sidebar kb vi vo ui).
Proof. unfold sidebar. auto 30 with ledger. Qed.
#[local] Hint Resolve keeps_sidebar : ledger.

(** Line 187 on a world where a transcript waits: one clearing, and nothing
    waits any more. *)
Lemma ledger_clear (w : World) :
  pending w = true -> ledger w (cleared w).
Proof.
  intros Hp. exists [SetLastVoiceInput None].
  split; [reflexivity|]. split; [reflexivity|].
  now rewrite Hp.
Qed.

(** Lines 185-188 when a transcript waits: it is cleared, and then
    [process_input] runs on the extracted text. *)
Lemma process_voice_input_staged (kb : KnowledgeBase) (t : str) (w : World) :
  last_voice_input (session w) = Some t ->
  t <> [] ->
  process_voice_input kb w = process_input kb t (cleared w).
Proof.
  intros Hv Ht. unfold process_voice_input, bind, get_session.
  rewrite Hv. destruct t as [|c t]; [congruence|reflexivity].
Qed.

(** Lines 185-188 when nothing waits: nothing happens. *)
Lemma process_voice_input_idle (kb : KnowledgeBase) (w : World) :
  pending w = false ->
  process_voice_input kb w = (Return tt, w).
Proof.
  unfold pending, process_voice_input, bind, get_session.
  destruct (last_voice_input (session w)) as [t|]; simpl; [|reflexivity].
  now intros ->.
Qed.

Lemma keeps_process_voice_input (kb : KnowledgeBase) :
  keeps_ledger (process_voice_input kb).
Proof.
  intros w. destruct (pending w) eqn:Hp.
  - unfold pending in Hp.
    destruct (last_voice_input (session w)) as [t|] eqn:Hv; [|discriminate].
    rewrite (process_voice_input_staged kb w Hv)
      by (intros ->; discriminate).
    eapply ledger_trans; [now apply ledger_clear; unfold pending; rewrite Hv|].
    apply keeps_process_input.
  - rewrite process_voice_input_idle by assumption. apply ledger_refl.
Qed.
#[local] Hint Resolve keeps_process_voice_input : ledger.

Lemma keeps_main (kb : KnowledgeBase) (vi : VoiceInput) (vo : VoiceOutput)
    (ui : Widgets) :
  keeps_ledger (main kb vi vo ui).
Proof.
  unfold main.
  destruct (chat_input ui) as [user_input|]; simpl; auto 20 with ledger.
Qed.

Lemma keeps_script (kb : KnowledgeBase) (vi : VoiceInput) (vo : VoiceOutput)
    (c : Cycle) :
  keeps_ledger (script kb vi vo c).
Proof.
  unfold script. apply keeps_bind; [auto with ledger|].
  intros _. apply keeps_main.
Qed.

(** Any number of refresh cycles, whatever the user does in them. *)
Lemma ledger_run_cycles (kb : KnowledgeBase) (vi : VoiceInput) (vo : VoiceOutput)
    (cs : list Cycle) (w : World) :
  ledger w (run_cycles kb vi vo cs w).
Proof.
  revert w. induction cs as [|c cs IH]; intros w; simpl.
  - apply ledger_refl.
  - eapply ledger_trans; [|apply IH].
    apply keeps_script.
Qed.


(** * Further properties of [app.py] *)

(** ** The input pipeline, case by case *)

(** [process_input] ends in one of three ways: nothing done (lines 97 and
    101), the question answered, or the question left without its answer
    because the query raised. *)
Lemma process_input_cases (kb : KnowledgeBase) (text : str) (w : World) :
  process_input kb text w = (Return tt, w) \/
  (exists response, process_input kb text w = (Return tt, answered_world text response w)) \/
  (exists e, process_input kb text w = (Raise e, unanswered_world text w)).
Proof.
  destruct (negb (truthy text) || isspace text) eqn:Hok.
  - left. unfold process_input. now rewrite Hok.
  - destruct (is_duplicate (messages (session w)) text) eqn:Hdup.
    + left. unfold process_input, bind, get_session. now rewrite Hok, Hdup.
    + destruct (query kb text (language (session w))) as [response|e] eqn:Hq.
      * right; left. exists response. now apply process_input_answered.
      * right; right. exists e. now apply process_input_query_raises.
Qed.

(** X1: [process_input] never touches the recording flag, the language or
    the staged transcript, and never starts a listening thread, whatever the
    text and however the call ends. *)
Theorem X1_process_input_leaves_recording_language_transcript
    (kb : KnowledgeBase) (text : str) (w : World) :
  recording (session (snd (process_input kb text w))) = recording (session w) /\
  language (session (snd (process_input kb text w))) = language (session w) /\
  last_voice_input (session (snd (process_input kb text w))) =
    last_voice_input (session w) /\
  listeners (snd (process_input kb text w)) = listeners w.
Proof.
  destruct (process_input_cases kb text w) as [H | [[r H] | [e H]]];
    rewrite H; simpl; repeat split; try reflexivity.
  unfold listeners. simpl. rewrite filter_app. simpl. now rewrite app_nil_r.
Qed.

(** X2: when the query raised on an accepted submission, submitting the same
    text again does nothing, whatever the knowledge base would answer now:
    the question stays in the history without an answer. *)
Theorem X2_resubmission_after_failed_query_is_dropped
    (kb kb' : KnowledgeBase) (text : str) (e : exn) (w : World) :
  text <> [] ->
  isspace text = false ->
  is_duplicate (messages (session w)) text = false ->
  query kb text (language (session w)) = Raise e ->
  process_input kb text w = (Raise e, unanswered_world text w) /\
  process_input kb' text (unanswered_world text w) =
    (Return tt, unanswered_world text w) /\
  last_message (messages (session (unanswered_world text w))) =
    Some (user_message text).
Proof.
  intros Hne Hsp Hdup Hq.
  assert (Hlast : last_message (messages (session (unanswered_world text w))) =
                  Some (user_message text)) by apply last_message_snoc.
  split; [apply process_input_query_raises; auto using accepted_text|].
  split; [|assumption].
  unfold process_input. rewrite (accepted_text Hne Hsp).
  unfold bind, get_session, is_duplicate. rewrite Hlast. simpl.
  now rewrite !eqb_refl.
Qed.

Lemma X2_witness :
  process_input broken_kb question initial_world =
    (Raise (Exception (lit "vector database missing")),
     unanswered_world question initial_world) /\
  process_input sample_kb question (unanswered_world question initial_world) =
    (Return tt, unanswered_world question initial_world) /\
  last_message (messages (session (unanswered_world question initial_world))) =
    Some (user_message question).
Proof.
  apply (X2_resubmission_after_failed_query_is_dropped
           broken_kb sample_kb (text := question) initial_world).
  - vm_compute; discriminate.
  - reflexivity.
  - reflexivity.
  - reflexivity.
Defined.

(** ** Recording *)

(** X3: two calls of [toggle_recording] in a row bring the recording flag
    back to what it was, and yet exactly one listening thread has been
    started: switching off does not take a started thread back. *)
Theorem X3_toggle_recording_twice (w : World) :
  (toggle_recording ;; toggle_recording) w =
    (Return tt,
     {| session := with_recording (session w) (recording (session w));
        threads := threads w ++ [Target_record_audio];
        log := log w ++ [SetRecording (negb (recording (session w)));
                         SetRecording (recording (session w))] |}).
Proof.
  unfold bind at 1. rewrite toggle_recording_run.
  destruct (recording (session w)) eqn:Hr; simpl.
  - unfold toggle_recording, bind, get_session; simpl.
    cbv [set_recording thread_start bind get_session put_session emit].
    simpl. now rewrite <- app_assoc.
  - unfold toggle_recording, bind, get_session; simpl.
    cbv [set_recording bind get_session put_session emit].
    simpl. now rewrite <- app_assoc.
Qed.

(** ** The listen task *)

(** The five ways [record_audio] can go. *)
Lemma record_audio_cases (vi : VoiceInput) (w : World) :
  (is_ready vi = false) \/
  (is_ready vi = true /\
   ((exists t, listen vi (language (session w)) 15 = Return (Some t) /\
               truthy t = true) \/
    (exists r, listen vi (language (session w)) 15 = Return r /\
               truthy_opt r = false) \/
    (exists e, listen vi (language (session w)) 15 = Raise e))).
Proof.
  destruct (is_ready vi); [right; split; [reflexivity|] | now left].
  destruct (listen vi (language (session w)) 15) as [[t|]|e] eqn:Hl.
  - destruct (truthy t) eqn:Ht.
    + left. now exists t.
    + right; left. now exists (Some t).
  - right; left. now exists None.
  - right; right. now exists e.
Qed.

(** X4: [record_audio] never touches the history, the language or the
    started threads, with or without a script-run context; and the staged
    transcript is either left as it was or becomes the non-empty text that
    recognition has just returned. *)
Theorem X4_record_audio_frame (vi : VoiceInput) (ctx : Context) (w : World) :
  messages (session (snd (record_audio vi ctx w))) = messages (session w) /\
  language (session (snd (record_audio vi ctx w))) = language (session w) /\
  threads (snd (record_audio vi ctx w)) = threads w /\
  (last_voice_input (session (snd (record_audio vi ctx w))) =
     last_voice_input (session w) \/
   exists t, t <> [] /\
     listen vi (language (session w)) 15 = Return (Some t) /\
     last_voice_input (session (snd (record_audio vi ctx w))) = Some t).
Proof.
  destruct ctx.
  - destruct (record_audio_cases vi w)
      as [Hr | [Hr [(t & Hl & Ht) | [(r & Hl & Ht) | (e & Hl)]]]].
    + rewrite (record_audio_unready vi w Hr). simpl. auto.
    + rewrite (record_audio_heard vi w Hr Hl Ht). simpl.
      repeat split; try reflexivity. right. exists t.
      repeat split; auto. now destruct t.
    + rewrite (record_audio_silent vi w Hr Hl Ht). simpl. auto.
    + destruct (is_Exception e) eqn:He.
      * rewrite (record_audio_error vi w Hr Hl He). simpl. auto.
      * rewrite (record_audio_interrupted vi w Hr Hl He). simpl. auto.
  - rewrite record_audio_no_context.
    destruct (is_ready vi); simpl; auto.
Qed.

(** X5: the thread started by [toggle_recording] never calls recognition,
    also when recognition is ready, and shows nothing on the page: its run
    leaves the session and the started threads as they were, and all it adds
    to the trace is error output (the traceback of the failed read of the
    language, and the end of the thread by an exception). *)
Theorem X5_listen_thread_never_listens
    (vi : VoiceInput) (vo : VoiceOutput) (w : World) :
  exists evs,
    thread_run vi vo Target_record_audio w =
      (Return tt,
       {| session := session w; threads := threads w; log := log w ++ evs |}) /\
    filter is_listen evs = [] /\
    forallb is_stderr evs = true.
Proof.
  rewrite listen_thread_run. eexists. split; [reflexivity|].
  destruct (is_ready vi); split; reflexivity.
Qed.

(** ** Runs as sequences of steps *)

Lemma run_steps_app (kb : KnowledgeBase) (s1 s2 : list Step) (w : World) :
  run_steps kb (s1 ++ s2) w = run_steps kb s2 (run_steps kb s1 w).
Proof. apply fold_left_app. Qed.

(** A relation that is reflexive, transitive and kept by every step that
    satisfies [P] is kept by every sequence of such steps. *)
Lemma run_steps_invariant (kb : KnowledgeBase) (R : World -> World -> Prop)
    (P : Step -> Prop) :
  (forall w, R w w) ->
  (forall w1 w2 w3, R w1 w2 -> R w2 w3 -> R w1 w3) ->
  (forall s w, P s -> R w (apply_step kb s w)) ->
  forall steps w, Forall P steps -> R w (run_steps kb steps w).
Proof.
  intros Hrefl Htrans Hstep steps.
  induction steps as [|s steps IH]; intros w HP; simpl.
  - apply Hrefl.
  - inversion HP as [|? ? Hs Hrest]; subst.
    eapply Htrans; [apply Hstep, Hs|apply IH, Hrest].
Qed.

Lemma stepwise_weaken (kb : KnowledgeBase) (P Q : Step -> Prop) {A} (c : M A) :
  (forall s, P s -> Q s) -> stepwise kb P c -> stepwise kb Q c.
Proof.
  intros HPQ Hc w. destruct (Hc w) as (steps & Hrun & HP).
  exists steps. split; [assumption|].
  eapply Forall_impl; eauto.
Qed.

Section Stepwise.

Variable kb : KnowledgeBase.
Variable P : Step -> Prop.

Lemma stepwise_nil {A} (c : M A) :
  (forall w, snd (c w) = w) -> stepwise kb P c.
Proof. intros H w. exists []. split; [apply H|constructor]. Qed.

Lemma stepwise_one {A} (c : M A) (s : Step) :
  (forall w, snd (c w) = apply_step kb s w) -> P s -> stepwise kb P c.
Proof. intros H Hs w. exists [s]. split; [apply H|now constructor]. Qed.

Lemma stepwise_ret {A} (a : A) : stepwise kb P (ret a).
Proof. now apply stepwise_nil. Qed.

Lemma stepwise_raise {A} (e : exn) : stepwise kb P (@raise A e).
Proof. now apply stepwise_nil. Qed.

Lemma stepwise_get_session : stepwise kb P get_session.
Proof. now apply stepwise_nil. Qed.

Lemma stepwise_emit (e : Event) : P (SEmit e) -> stepwise kb P (emit e).
Proof. now apply stepwise_one. Qed.

Lemma stepwise_set_language (l : Language) :
  P (SSetLanguage l) -> stepwise kb P (set_language l).
Proof. now apply stepwise_one. Qed.

Lemma stepwise_clear : P SClear -> stepwise kb P (set_last_voice_input None).
Proof. now apply stepwise_one. Qed.

Lemma stepwise_process_input (text : str) :
  P (SProcess text) -> stepwise kb P (process_input kb text).
Proof. now apply stepwise_one. Qed.

Lemma stepwise_toggle_recording : P SToggle -> stepwise kb P toggle_recording.
Proof. now apply stepwise_one. Qed.

Lemma stepwise_bind {A B} (c : M A) (k : A -> M B) :
  stepwise kb P c -> (forall a, stepwise kb P (k a)) -> stepwise kb P (bind c k).
Proof.
  intros Hc Hk w. unfold bind.
  destruct (Hc w) as (s1 & Hrun1 & HP1).
  destruct (c w) as [[a|e] w1]; simpl in *.
  - destruct (Hk a w1) as (s2 & Hrun2 & HP2).
    exists (s1 ++ s2). rewrite run_steps_app, <- Hrun1.
    split; [assumption|]. apply Forall_app; now split.
  - now exists s1.
Qed.

(** When the first part never returns, what follows it does not run. *)
Lemma stepwise_bind_diverts {A B} (c : M A) (k : A -> M B) :
  stepwise kb P c -> diverts c -> stepwise kb P (bind c k).
Proof.
  intros Hc Hd w. unfold bind.
  destruct (Hc w) as (s1 & Hrun1 & HP1). destruct (Hd w) as [e He].
  destruct (c w) as [[a|e'] w1]; simpl in *; [discriminate|].
  now exists s1.
Qed.

End Stepwise.

Lemma diverts_bind_l {A B} (c : M A) (k : A -> M B) :
  diverts c -> diverts (bind c k).
Proof.
  intros Hd w. unfold bind. destruct (Hd w) as [e He].
  destruct (c w) as [[a|e'] w1]; simpl in *; [discriminate|].
  now exists e'.
Qed.

Lemma diverts_bind_r {A B} (c : M A) (k : A -> M B) :
  (forall a, diverts (k a)) -> diverts (bind c k).
Proof.
  intros Hk w. unfold bind.
  destruct (c w) as [[a|e] w1]; [apply Hk|now exists e].
Qed.

Lemma diverts_st_rerun : diverts st_rerun.
Proof. intros w. now exists RerunException. Qed.

Create HintDb steps.
#[local] Hint Resolve stepwise_ret stepwise_raise stepwise_get_session : steps.
#[local] Hint Extern 2 (stepwise _ _ (bind _ _)) =>
  apply stepwise_bind; [|intros ?] : steps.
#[local] Hint Extern 3 (stepwise _ _ (if ?b then _ else _)) =>
  destruct b : steps.

(** The parts of [main], for any class of steps that holds the display
    calls other than the button, the language write, the clearing and the
    calls of [process_input]. *)
Section MainSteps.

Variable kb : KnowledgeBase.
Variable vi : VoiceInput.
Variable vo : VoiceOutput.
Variable ui : Widgets.
Variable P : Step -> Prop.

Hypothesis P_display :
  forall e, is_display e = true -> is_button e = false -> P (SEmit e).
Hypothesis P_language : P (SSetLanguage (selectbox ui)).
Hypothesis P_clear : P SClear.
Hypothesis P_process : forall text, P (SProcess text).

#[local] Hint Extern 1 (stepwise _ _ (emit _)) =>
  apply stepwise_emit; apply P_display; reflexivity : steps.
#[local] Hint Resolve stepwise_set_language stepwise_clear
  stepwise_process_input : steps.

Lemma stepwise_st_rerun : stepwise kb P st_rerun.
Proof. unfold st_rerun. auto with steps. Qed.
#[local] Hint Resolve stepwise_st_rerun : steps.

Lemma stepwise_sidebar : stepwise kb P (sidebar kb vi vo ui).
Proof. unfold sidebar. cbv zeta. auto 30 with steps. Qed.

Lemma stepwise_display_messages (ms : list Message) :
  stepwise kb P (display_messages ms).
Proof. induction ms as [|m ms IH]; simpl; auto with steps. Qed.

Lemma stepwise_process_voice_input : stepwise kb P (process_voice_input kb).
Proof.
  unfold process_voice_input. apply stepwise_bind; [auto with steps|].
  intros s. destruct (last_voice_input s) as [t|]; auto 6 with steps.
Qed.

(** Lines 196-199. *)
Lemma stepwise_chat_block :
  stepwise kb P
    (if truthy_opt (chat_input ui) then
       match chat_input ui with
       | Some user_input => process_input kb user_input ;; st_rerun
       | None => ret tt
       end
     else ret tt).
Proof. destruct (chat_input ui) as [u|]; simpl; auto 6 with steps. Qed.

End MainSteps.

Lemma main_step_of_no_button (ui : Widgets) (s : Step) :
  main_step_no_button ui s -> main_step ui s.
Proof. destruct s; simpl; tauto. Qed.

(** Every run of [main] is a sequence of display calls, the language write
    with the selected language, the clearing of the staged transcript and
    calls of [process_input]. *)
Lemma stepwise_main (kb : KnowledgeBase) (vi : VoiceInput) (vo : VoiceOutput)
    (ui : Widgets) :
  stepwise kb (main_step ui) (main kb vi vo ui).
Proof.
  assert (Hd : forall e, is_display e = true -> is_button e = false ->
                         main_step ui (SEmit e)) by (intros; assumption).
  unfold main.
  apply stepwise_bind; [now apply stepwise_sidebar|intros _].
  apply stepwise_bind; [now apply stepwise_emit|intros _].
  apply stepwise_bind; [now apply stepwise_process_voice_input|intros _].
  apply stepwise_bind; [apply stepwise_get_session|intros s].
  apply stepwise_bind; [now apply stepwise_display_messages|intros _].
  apply stepwise_bind; [now apply stepwise_emit|intros _].
  apply stepwise_bind; [now apply stepwise_chat_block|intros _].
  apply stepwise_bind; [apply stepwise_get_session|intros s'].
  apply stepwise_bind; [now apply stepwise_emit|intros _].
  destruct (recording s'); [now apply stepwise_emit|apply stepwise_ret].
Qed.

Lemma stepwise_script (kb : KnowledgeBase) (vi : VoiceInput) (vo : VoiceOutput)
    (c : Cycle) :
  stepwise kb (script_step c) (script kb vi vo c).
Proof.
  unfold script. apply stepwise_bind.
  - destruct (mic_clicked c) eqn:Hc.
    + now apply stepwise_toggle_recording.
    + apply stepwise_ret.
  - intros _. apply stepwise_weaken with (P := main_step (widgets c)).
    + intros [] H; simpl in *; tauto.
    + apply stepwise_main.
Qed.

(** Any number of cycles is one sequence of steps, each of them a step of
    one of the cycles. *)
Lemma run_cycles_steps (kb : KnowledgeBase) (vi : VoiceInput) (vo : VoiceOutput)
    (cs : list Cycle) (w : World) :
  exists steps,
    run_cycles kb vi vo cs w = run_steps kb steps w /\
    Forall (fun s => exists c, In c cs /\ script_step c s) steps.
Proof.
  revert w. induction cs as [|c cs IH]; intros w; simpl.
  - exists []. split; [reflexivity|constructor].
  - destruct (stepwise_script kb vi vo c w) as (s1 & Hrun1 & HP1).
    destruct (IH (run_cycle kb vi vo w c)) as (s2 & Hrun2 & HP2).
    exists (s1 ++ s2). unfold run_cycle at 1 in Hrun2.
    rewrite run_steps_app, <- Hrun1. split; [exact Hrun2|].
    apply Forall_app. split.
    + eapply Forall_impl; [|exact HP1]. intros s Hs. exists c. auto.
    + eapply Forall_impl; [|exact HP2]. intros s (c' & Hin & Hs).
      exists c'. auto.
Qed.

(** ** Questions, answers, queries and speaking threads *)

Lemma story_refl (w : World) : story w w.
Proof.
  unfold story. split; [exists []; now rewrite app_nil_r|]. lia.
Qed.

Lemma story_trans (w1 w2 w3 : World) : story w1 w2 -> story w2 w3 -> story w1 w3.
Proof.
  intros ((m1 & H1) & A1 & B1 & C1) ((m2 & H2) & A2 & B2 & C2).
  split; [exists (m1 ++ m2); now rewrite H2, H1, app_assoc|]. lia.
Qed.

(** A step that leaves the history and the started threads alone and logs
    no query. *)
Lemma story_quiet (w w' : World) (evs : list Event) :
  messages (session w') = messages (session w) ->
  filter is_speak (threads w') = filter is_speak (threads w) ->
  log w' = log w ++ evs ->
  count is_kb_query evs = 0 ->
  story w w'.
Proof.
  intros Hm Ht Hl Hq. unfold story, spoken, answers, asked, queried.
  rewrite Hm, Ht, Hl, count_app, Hq.
  split; [exists []; now rewrite app_nil_r|]. lia.
Qed.

Lemma story_process_input (kb : KnowledgeBase) (text : str) (w : World) :
  story w (snd (process_input kb text w)).
Proof.
  destruct (process_input_cases kb text w) as [H | [[r H] | [e H]]];
    rewrite H; simpl.
  - apply story_refl.
  - unfold story, spoken, answers, asked, queried. simpl.
    rewrite !filter_app, !length_app, count_app. simpl.
    split; [eexists; reflexivity|]. unfold count. simpl. lia.
  - unfold story, spoken, answers, asked, queried. simpl.
    rewrite !filter_app, !length_app, count_app. simpl.
    split; [eexists; reflexivity|]. unfold count. simpl. lia.
Qed.

Lemma story_step (kb : KnowledgeBase) (c : Cycle) (s : Step) (w : World) :
  script_step c s -> story w (apply_step kb s w).
Proof.
  destruct s as [e| l | | text |]; simpl; intros Hs.
  - apply story_quiet with (evs := [e]); try reflexivity.
    destruct e; try discriminate; reflexivity.
  - now apply story_quiet with (evs := [SetLanguage l]).
  - now apply story_quiet with (evs := [SetLastVoiceInput None]).
  - apply story_process_input.
  - rewrite toggle_recording_run. simpl.
    destruct (recording (session w)).
    + now apply story_quiet with (evs := [SetRecording false]).
    + apply story_quiet with (evs := [SetRecording true]); try reflexivity.
      simpl. rewrite filter_app. simpl. now rewrite app_nil_r.
Qed.

Lemma story_run_cycles (kb : KnowledgeBase) (vi : VoiceInput) (vo : VoiceOutput)
    (cs : list Cycle) (w : World) :
  story w (run_cycles kb vi vo cs w).
Proof.
  destruct (run_cycles_steps kb vi vo cs w) as (steps & -> & HP).
  apply run_steps_invariant
    with (P := fun s => exists c, In c cs /\ script_step c s).
  - apply story_refl.
  - apply story_trans.
  - intros s w' (c & _ & Hs). eapply story_step; eauto.
  - assumption.
Qed.

(** X7: over any sequence of refresh cycles the history only grows at its
    end: the messages that were there stay, in their order and unchanged. *)
Theorem X7_history_is_append_only
    (kb : KnowledgeBase) (vi : VoiceInput) (vo : VoiceOutput)
    (cs : list Cycle) (w : World) :
  exists ms,
    messages (session (run_cycles kb vi vo cs w)) = messages (session w) ++ ms.
Proof. apply (story_run_cycles kb vi vo cs w). Qed.


(** X9: over any sequence of refresh cycles, the knowledge base is queried
    exactly once for each user message added to the history, and no more
    assistant messages are added than user messages. *)
Theorem X9_one_query_per_user_message
    (kb : KnowledgeBase) (vi : VoiceInput) (vo : VoiceOutput)
    (cs : list Cycle) (w : World) :
  queried (run_cycles kb vi vo cs w) + asked w =
    queried w + asked (run_cycles kb vi vo cs w) /\
  answers (run_cycles kb vi vo cs w) + asked w <=
    answers w + asked (run_cycles kb vi vo cs w).
Proof. apply (story_run_cycles kb vi vo cs w). Qed.

(** ** The recording flag and the language across cycles *)

Lemma process_input_frame (kb : KnowledgeBase) (text : str) (w : World) :
  recording (session (snd (process_input kb text w))) = recording (session w) /\
  language (session (snd (process_input kb text w))) = language (session w) /\
  listeners (snd (process_input kb text w)) = listeners w.
Proof.
  destruct (process_input_cases kb text w) as [H | [[r H] | [e H]]];
    rewrite H; simpl; repeat split; try reflexivity.
  unfold listeners. simpl. rewrite filter_app. simpl. now rewrite app_nil_r.
Qed.

Lemma no_recording_change_step (kb : KnowledgeBase) (c : Cycle) (s : Step)
    (w : World) :
  mic_clicked c = false -> script_step c s ->
  no_recording_change w (apply_step kb s w).
Proof.
  intros Hc. destruct s as [e| l | | text |]; simpl; intros Hs;
    try (split; reflexivity).
  - destruct (process_input_frame kb text w) as (Hr & _ & Hl). now split.
  - congruence.
Qed.

(** X10: over any sequence of refresh cycles in which the microphone button
    is not clicked, the recording flag keeps its value and no listening
    thread is started, whatever is typed, selected or staged. *)
Theorem X10_recording_changes_only_on_click
    (kb : KnowledgeBase) (vi : VoiceInput) (vo : VoiceOutput)
    (cs : list Cycle) (w : World) :
  Forall (fun c => mic_clicked c = false) cs ->
  recording (session (run_cycles kb vi vo cs w)) = recording (session w) /\
  listeners (run_cycles kb vi vo cs w) = listeners w.
Proof.
  intros Hcs.
  destruct (run_cycles_steps kb vi vo cs w) as (steps & -> & HP).
  apply (@run_steps_invariant kb no_recording_change
           (fun s => exists c, In c cs /\ script_step c s)).
  - intros w'. now split.
  - intros w1 w2 w3 [H1 H2] [H3 H4]. split; congruence.
  - intros s w' (c & Hin & Hs).
    apply no_recording_change_step with (c := c); auto.
    rewrite Forall_forall in Hcs. now apply Hcs.
  - assumption.
Qed.

Lemma X10_witness :
  recording (session (run_cycles sample_kb silent_voice_input sample_voice_output
                        [asking_cycle; french_cycle] staged_world)) = false /\
  listeners (run_cycles sample_kb silent_voice_input sample_voice_output
               [asking_cycle; french_cycle] staged_world) = 0.
Proof.
  apply (X10_recording_changes_only_on_click
           sample_kb silent_voice_input sample_voice_output
           (cs := [asking_cycle; french_cycle]) staged_world).
  repeat constructor.
Defined.

Lemma Language_eqb_eq (a b : Language) : Language_eqb a b = true <-> a = b.
Proof. destruct a, b; simpl; split; congruence. Qed.

(** Lines 137-139, when another language is selected. *)
Lemma main_language_change (kb : KnowledgeBase) (vi : VoiceInput)
    (vo : VoiceOutput) (ui : Widgets) (w : World) :
  selectbox ui <> language (session w) ->
  main kb vi vo ui w =
    (Raise RerunException,
     {| session := with_language (session w) (selectbox ui);
        threads := threads w;
        log := log w ++ [StTitle (lit "OORT DH Africa Assistant");
                         StImage (lit "oort_logo.svg");
                         StSelectbox (language (session w));
                         SetLanguage (selectbox ui);
                         StRerun] |}).
Proof.
  intros Hsel.
  assert (Hb : Language_eqb (selectbox ui) (language (session w)) = false).
  { destruct (Language_eqb (selectbox ui) (language (session w))) eqn:E;
      [apply Language_eqb_eq in E; contradiction|reflexivity]. }
  unfold main, sidebar. cbv [bind emit get_session].
  cbn [session threads log fst snd]. rewrite Hb. cbn [negb].
  cbv [set_language st_rerun bind get_session put_session emit raise].
  cbn [session threads log fst snd]. unfold with_language.
  now rewrite <- !app_assoc.
Qed.

(** X11: when the selected language is not the session's, [main] stores it
    and reruns at once: the rest of the script does not run in this cycle,
    so the history, the started threads, the recording flag and a staged
    transcript are left as they are, and a submitted text is not processed. *)
Theorem X11_language_change_reruns_at_once
    (kb : KnowledgeBase) (vi : VoiceInput) (vo : VoiceOutput)
    (ui : Widgets) (w : World) :
  selectbox ui <> language (session w) ->
  fst (main kb vi vo ui w) = Raise RerunException /\
  session (snd (main kb vi vo ui w)) = with_language (session w) (selectbox ui) /\
  threads (snd (main kb vi vo ui w)) = threads w /\
  exists evs,
    log (snd (main kb vi vo ui w)) = log w ++ evs /\
    count is_clear evs = 0 /\
    count is_kb_query evs = 0 /\
    count is_rerun evs = 1.
Proof.
  intros Hsel. rewrite (@main_language_change kb vi vo ui w Hsel). simpl.
  repeat split. eexists. split; [reflexivity|]. repeat split.
Qed.

Lemma X11_witness :
  fst (main sample_kb silent_voice_input sample_voice_output
         (widgets french_cycle) staged_world) = Raise RerunException /\
  session (snd (main sample_kb silent_voice_input sample_voice_output
                  (widgets french_cycle) staged_world)) =
    with_language (session staged_world) french /\
  threads (snd (main sample_kb silent_voice_input sample_voice_output
                  (widgets french_cycle) staged_world)) = [] /\
  exists evs,
    log (snd (main sample_kb silent_voice_input sample_voice_output
                (widgets french_cycle) staged_world)) = [] ++ evs /\
    count is_clear evs = 0 /\
    count is_kb_query evs = 0 /\
    count is_rerun evs = 1.
Proof.
  apply (@X11_language_change_reruns_at_once
           sample_kb silent_voice_input sample_voice_output
           (widgets french_cycle) staged_world).
  simpl. discriminate.
Defined.

Lemma language_kept_or_step (kb : KnowledgeBase) (c : Cycle) (s : Step)
    (w : World) :
  script_step c s ->
  language_kept_or (selectbox (widgets c)) w (apply_step kb s w).
Proof.
  destruct s as [e| l | | text |]; simpl; intros Hs;
    try (left; reflexivity).
  - right. now subst.
  - left. apply process_input_frame.
  - left. rewrite toggle_recording_run. simpl.
    now destruct (recording (session w)).
Qed.

(** X12: after every refresh cycle the language of the session is the one
    selected in the sidebar during that cycle. *)
Theorem X12_language_follows_selectbox
    (kb : KnowledgeBase) (vi : VoiceInput) (vo : VoiceOutput)
    (c : Cycle) (w : World) :
  language (session (run_cycle kb vi vo w c)) = selectbox (widgets c).
Proof.
  destruct (Language_eqb (selectbox (widgets c)) (language (session w))) eqn:E.
  - apply Language_eqb_eq in E.
    destruct (stepwise_script kb vi vo c w) as (steps & Hrun & HP).
    unfold run_cycle. rewrite Hrun.
    assert (H : language_kept_or (selectbox (widgets c)) w (run_steps kb steps w)).
    { apply run_steps_invariant with (P := script_step c); auto.
      - now left.
      - intros w1 w2 w3 [H1|H1] [H2|H2]; unfold language_kept_or;
          [left|right|right|right]; congruence.
      - intros s w'. apply language_kept_or_step. }
    destruct H as [H|H]; congruence.
  - assert (Hsel : selectbox (widgets c) <> language (session w)).
    { intros H. apply Language_eqb_eq in H. congruence. }
    unfold run_cycle, script, bind.
    destruct (mic_clicked c).
    + rewrite toggle_recording_run.
      destruct (recording (session w)); rewrite main_language_change;
        auto.
    + simpl. now rewrite main_language_change.
Qed.

(** ** What [main] draws *)

Lemma bind_Return {A B} (c : M A) (k : A -> M B) (w w1 : World) (a : A) :
  c w = (Return a, w1) -> bind c k w = k a w1.
Proof. intros H. unfold bind. now rewrite H. Qed.

Lemma bind_Return_inv {A B} (c : M A) (k : A -> M B) (w w' : World) (b : B) :
  bind c k w = (Return b, w') ->
  exists a w1, c w = (Return a, w1) /\ k a w1 = (Return b, w').
Proof.
  unfold bind. destruct (c w) as [[a|e] w1]; [|discriminate].
  intros H. now exists a, w1.
Qed.

Lemma logged_nil (w : World) : logged w [] = w.
Proof. destruct w. unfold logged. simpl. now rewrite app_nil_r. Qed.

Lemma logged_logged (w : World) (e1 e2 : list Event) :
  logged (logged w e1) e2 = logged w (e1 ++ e2).
Proof. unfold logged. simpl. now rewrite app_assoc. Qed.

Lemma emit_logged (e : Event) (w : World) : emit e w = (Return tt, logged w [e]).
Proof. reflexivity. Qed.

Lemma display_messages_run (ms : list Message) (w : World) :
  display_messages ms w = (Return tt, logged w (map chat_event ms)).
Proof.
  revert w. induction ms as [|m ms IH]; intros w; simpl.
  - now rewrite logged_nil.
  - unfold bind. rewrite emit_logged, IH, logged_logged. reflexivity.
Qed.

(** X13: [display_messages] draws one chat bubble per message of the
    history, in the order of the history, each with the role and the content
    of its message; it returns normally and changes neither the session nor
    the started threads. *)
Theorem X13_display_messages_draws_history_in_order
    (ms : list Message) (w : World) :
  display_messages ms w =
    (Return tt,
     {| session := session w; threads := threads w;
        log := log w ++ map (fun m => StChatMessage (role m) (content m)) ms |}).
Proof. apply display_messages_run. Qed.

(** Lines 118-179 when the selected language is the session's: the sidebar
    only draws. *)
Lemma sidebar_run (kb : KnowledgeBase) (vi : VoiceInput) (vo : VoiceOutput)
    (ui : Widgets) (w : World) :
  selectbox ui = language (session w) ->
  exists evs,
    sidebar kb vi vo ui w = (Return tt, logged w evs) /\
    In (StStatus VoiceInputC (is_ready vi)) evs /\
    In (StStatus VoiceOutputC (is_ready vo)) evs /\
    In (StStatus KnowledgeBaseC (is_ready kb)) evs /\
    count is_expander evs =
      (if is_ready vi && is_ready vo && is_ready kb then 0 else 1) /\
    count is_write evs =
      1 + Nat.b2n (negb (is_ready vi)) + Nat.b2n (negb (is_ready vo))
        + Nat.b2n (negb (is_ready kb)) /\
    filter is_chat_message evs = [].
Proof.
  intros Hsel.
  assert (Hb : Language_eqb (selectbox ui) (language (session w)) = true)
    by now apply Language_eqb_eq.
  unfold sidebar. cbv zeta. cbv [bind emit get_session].
  cbn [session threads log fst snd]. rewrite Hb. cbn [negb ret].
  destruct (is_ready vi), (is_ready vo), (is_ready kb);
    cbn [negb andb ret session threads log fst snd];
    unfold logged; rewrite <- !app_assoc; cbn [app];
    (eexists; split; [reflexivity|]);
    cbn [In]; repeat split; tauto.
Qed.

(** X14: with the session's language selected, the sidebar shows the
    readiness of the three components as they answer [is_ready], opens the
    troubleshooting panel exactly when one of them is not ready, with one
    line for each component that is not ready, and changes neither the
    session nor the started threads. *)
Theorem X14_sidebar_status_panel
    (kb : KnowledgeBase) (vi : VoiceInput) (vo : VoiceOutput)
    (ui : Widgets) (w : World) :
  selectbox ui = language (session w) ->
  exists evs,
    sidebar kb vi vo ui w = (Return tt, logged w evs) /\
    In (StStatus VoiceInputC (is_ready vi)) evs /\
    In (StStatus VoiceOutputC (is_ready vo)) evs /\
    In (StStatus KnowledgeBaseC (is_ready kb)) evs /\
    count is_expander evs =
      (if is_ready vi && is_ready vo && is_ready kb then 0 else 1) /\
    count is_write evs =
      1 + Nat.b2n (negb (is_ready vi)) + Nat.b2n (negb (is_ready vo))
        + Nat.b2n (negb (is_ready kb)).
Proof.
  intros Hsel.
  destruct (sidebar_run kb vi vo ui w Hsel)
    as (evs & H1 & H2 & H3 & H4 & H5 & H6 & _).
  exists evs. auto 10.
Qed.

Lemma X14_witness :
  exists evs,
    sidebar broken_kb silent_voice_input sample_voice_output
      (widgets asking_cycle) initial_world = (Return tt, logged initial_world evs) /\
    In (StStatus VoiceInputC true) evs /\
    In (StStatus VoiceOutputC true) evs /\
    In (StStatus KnowledgeBaseC false) evs /\
    count is_expander evs = 1 /\
    count is_write evs = 2.
Proof.
  apply (@X14_sidebar_status_panel broken_kb silent_voice_input
           sample_voice_output (widgets asking_cycle) initial_world).
  reflexivity.
Defined.

(** X15: when a run of [main] reaches its end, the last thing it draws is
    the microphone button, disabled exactly when the session is recording,
    followed by the "Listening..." note exactly in that case. *)
Theorem X15_mic_button_disabled_while_recording
    (kb : KnowledgeBase) (vi : VoiceInput) (vo : VoiceOutput)
    (ui : Widgets) (w w' : World) :
  main kb vi vo ui w = (Return tt, w') ->
  exists l,
    log w' =
      l ++ StButton (recording (session w'))
        :: (if recording (session w')
            then [StWrite (lit "Listening...")] else []).
Proof.
  intros H. unfold main in H.
  do 7 (apply bind_Return_inv in H; destruct H as (? & ? & _ & H)).
  cbv [bind get_session emit] in H. cbn [session threads log] in H.
  destruct (recording (session x12)) eqn:Hr; cbn [ret] in H;
    injection H as <-; cbn [session log recording]; rewrite Hr.
  - eexists. rewrite <- app_assoc. reflexivity.
  - eexists. reflexivity.
Qed.

Lemma X15_witness :
  exists l,
    log (snd (main sample_kb silent_voice_input sample_voice_output
                (widgets idle_cycle) staged_world)) =
      l ++ [StButton false].
Proof.
  apply (@X15_mic_button_disabled_while_recording
           sample_kb silent_voice_input sample_voice_output
           (widgets idle_cycle) staged_world
           (snd (main sample_kb silent_voice_input sample_voice_output
                   (widgets idle_cycle) staged_world))).
  vm_compute. reflexivity.
Defined.

Lemma no_button_drawn_refl (w : World) : no_button_drawn w w.
Proof. exists []. now rewrite app_nil_r. Qed.

Lemma no_button_drawn_trans (w1 w2 w3 : World) :
  no_button_drawn w1 w2 -> no_button_drawn w2 w3 -> no_button_drawn w1 w3.
Proof.
  intros (e1 & L1 & C1) (e2 & L2 & C2). exists (e1 ++ e2).
  rewrite L2, L1, app_assoc, count_app. split; [reflexivity|lia].
Qed.

Lemma no_button_drawn_step (kb : KnowledgeBase) (ui : Widgets) (s : Step)
    (w : World) :
  main_step_no_button ui s -> no_button_drawn w (apply_step kb s w).
Proof.
  destruct s as [e| l | | text |]; simpl; intros Hs.
  - exists [e]. split; [reflexivity|]. unfold count. simpl.
    destruct Hs as [_ ->]. reflexivity.
  - now exists [SetLanguage l].
  - now exists [SetLastVoiceInput None].
  - destruct (process_input_cases kb text w) as [H | [[r H] | [e H]]];
      rewrite H; simpl.
    + apply no_button_drawn_refl.
    + eexists. split; reflexivity.
    + eexists. split; reflexivity.
  - contradiction.
Qed.

(** With a text in the chat box, the run of [main] is made of steps that do
    not draw the button, and it does not return normally. *)
Lemma main_with_submission (kb : KnowledgeBase) (vi : VoiceInput)
    (vo : VoiceOutput) (ui : Widgets) :
  truthy_opt (chat_input ui) = true ->
  stepwise kb (main_step_no_button ui) (main kb vi vo ui) /\
  diverts (main kb vi vo ui).
Proof.
  intros Hc.
  assert (Hd : forall e, is_display e = true -> is_button e = false ->
                         main_step_no_button ui (SEmit e)) by (simpl; auto).
  assert (Hchat : forall (k : unit -> M unit),
            diverts
              ((if truthy_opt (chat_input ui) then
                  match chat_input ui with
                  | Some user_input => process_input kb user_input ;; st_rerun
                  | None => ret tt
                  end
                else ret tt) ;; k tt)).
  { intros k. apply diverts_bind_l. rewrite Hc.
    destruct (chat_input ui) as [u|]; [|discriminate].
    apply diverts_bind_r. intros _. apply diverts_st_rerun. }
  unfold main. split.
  - apply stepwise_bind; [now apply stepwise_sidebar|intros _].
    apply stepwise_bind; [now apply stepwise_emit; apply Hd|intros _].
    apply stepwise_bind; [now apply stepwise_process_voice_input|intros _].
    apply stepwise_bind; [apply stepwise_get_session|intros s].
    apply stepwise_bind; [now apply stepwise_display_messages|intros _].
    apply stepwise_bind; [now apply stepwise_emit; apply Hd|intros _].
    apply stepwise_bind_diverts; [now apply stepwise_chat_block|].
    rewrite Hc. destruct (chat_input ui) as [u|]; [|discriminate].
    apply diverts_bind_r. intros _. apply diverts_st_rerun.
  - do 6 (apply diverts_bind_r; intros ?).
    apply (Hchat (fun _ => _)).
Qed.

(** X16: a run of [main] in which a text was submitted in the chat box never
    reaches the end of the script: it stops in a rerun or in the exception of
    the query, and the microphone button is not drawn in that run. *)
Theorem X16_submission_run_stops_before_button
    (kb : KnowledgeBase) (vi : VoiceInput) (vo : VoiceOutput)
    (ui : Widgets) (w : World) :
  truthy_opt (chat_input ui) = true ->
  (exists e, fst (main kb vi vo ui w) = Raise e) /\
  exists evs,
    log (snd (main kb vi vo ui w)) = log w ++ evs /\
    count is_button evs = 0.
Proof.
  intros Hc. destruct (main_with_submission kb vi vo ui Hc) as [Hs Hd].
  split; [apply Hd|].
  destruct (Hs w) as (steps & -> & HP).
  apply (@run_steps_invariant kb no_button_drawn (main_step_no_button ui)).
  - apply no_button_drawn_refl.
  - apply no_button_drawn_trans.
  - intros s w'. apply no_button_drawn_step.
  - assumption.
Qed.

Lemma X16_witness :
  (exists e, fst (main sample_kb silent_voice_input sample_voice_output
                    (widgets asking_cycle) initial_world) = Raise e) /\
  exists evs,
    log (snd (main sample_kb silent_voice_input sample_voice_output
                (widgets asking_cycle) initial_world)) = [] ++ evs /\
    count is_button evs = 0.
Proof.
  apply (@X16_submission_run_stops_before_button
           sample_kb silent_voice_input sample_voice_output
           (widgets asking_cycle) initial_world).
  reflexivity.
Defined.
(** ** From the microphone to the answer *)

(** A run of [main] that finds a staged transcript, with the session's
    language selected and nothing typed. *)
Lemma main_answers_staged (kb : KnowledgeBase) (vi : VoiceInput)
    (vo : VoiceOutput) (ui : Widgets) (w : World) (t r : str) :
  last_voice_input (session w) = Some t ->
  negb (truthy t) || isspace t = false ->
  is_duplicate (messages (session w)) t = false ->
  query kb t (language (session w)) = Return r ->
  selectbox ui = language (session w) ->
  chat_input ui = None ->
  exists evs,
    main kb vi vo ui w =
      (Return tt,
       {| session :=
            with_last_voice_input
              (with_appended (session w) [user_message t; assistant_message r])
              None;
          threads := threads w ++ [Target_speak r (language (session w))];
          log := log w ++ evs |}) /\
    In (KbQuery t (language (session w))) evs /\
    In (chat_event (user_message t)) evs /\
    In (chat_event (assistant_message r)) evs.
Proof.
  intros Hv Hok Hdup Hq Hsel Hchat.
  destruct (sidebar_run kb vi vo ui w Hsel) as (evs1 & Hs & _).
  unfold main.
  rewrite (bind_Return _ _ _ Hs).
  rewrite (bind_Return _ _ _ (emit_logged _ _)), logged_logged.
  assert (Ht : t <> []) by (intros ->; discriminate).
  erewrite bind_Return; cycle 1.
  { rewrite (@process_voice_input_staged kb t _) by (simpl; assumption).
    apply process_input_answered; simpl; eassumption. }
  cbv beta.
  erewrite bind_Return by reflexivity. cbv beta.
  rewrite (bind_Return _ _ _ (display_messages_run _ _)).
  rewrite (bind_Return _ _ _ (emit_logged _ _)), logged_logged.
  rewrite Hchat. cbn [truthy_opt].
  erewrite bind_Return by reflexivity.
  erewrite bind_Return by reflexivity. cbv beta.
  rewrite (bind_Return _ _ _ (emit_logged _ _)), logged_logged.
  cbn [session threads log logged cleared with_appended messages].
  assert (Hin : forall e evs2 evs3,
            In e evs2 -> In e (evs1 ++ [StTitle (lit "OORT Africa Assistant")]
                                 ++ [SetLastVoiceInput None] ++ evs2 ++ evs3)).
  { intros e evs2 evs3 He. rewrite !in_app_iff. auto. }
  unfold logged, ret, emit, with_last_voice_input, with_appended;
    cbn [session threads log messages recording language last_voice_input].
  destruct (recording (session w));
    cbn [session threads log];
    rewrite <- ?app_assoc;
    (eexists; split; [reflexivity|]);
    (split; [apply Hin; simpl; tauto|]);
    split; rewrite !in_app_iff; right; right; right; right; left;
    apply in_map, in_or_app; right; simpl; tauto.
Qed.


Lemma bind_Raise {A B} (c : M A) (k : A -> M B) (w w1 : World) (e : exn) :
  c w = (Raise e, w1) -> bind c k w = (Raise e, w1).
Proof. intros H. unfold bind. now rewrite H. Qed.

Lemma filter_chat_events (ms : list Message) :
  filter is_chat_message (map chat_event ms) = map chat_event ms.
Proof. induction ms as [|m ms IH]; simpl; [reflexivity|now rewrite IH]. Qed.

(** X18: a typed question.  When nothing is staged, the session's language
    is selected, and the submitted text is accepted and answered, the run of
    [main] first draws the history as it was, then appends the question and
    the answer, starts the speaking thread and asks for a rerun: the two new
    messages are not drawn in this run, and the rerun request is the last
    thing that happens. *)
Theorem X18_typed_question_is_answered_then_rerun
    (kb : KnowledgeBase) (vi : VoiceInput) (vo : VoiceOutput)
    (ui : Widgets) (w : World) (text r : str) :
  pending w = false ->
  selectbox ui = language (session w) ->
  chat_input ui = Some text ->
  text <> [] ->
  isspace text = false ->
  is_duplicate (messages (session w)) text = false ->
  query kb text (language (session w)) = Return r ->
  exists evs,
    main kb vi vo ui w =
      (Raise RerunException,
       {| session := with_appended (session w)
                       [user_message text; assistant_message r];
          threads := threads w ++ [Target_speak r (language (session w))];
          log := log w ++ evs ++ [MessagesAppend (user_message text);
                                  KbQuery text (language (session w));
                                  MessagesAppend (assistant_message r);
                                  StRerun] |}) /\
    filter is_chat_message evs = map chat_event (messages (session w)).
Proof.
  intros Hp Hsel Hchat Hne Hsp Hdup Hq.
  destruct (sidebar_run kb vi vo ui w Hsel) as (evs1 & Hs & _ & _ & _ & _ & _ & Hc).
  exists (evs1 ++ [StTitle (lit "OORT Africa Assistant")]
               ++ map chat_event (messages (session w)) ++ [StChatInput]).
  split.
  - unfold main.
    rewrite (bind_Return _ _ _ Hs).
    rewrite (bind_Return _ _ _ (emit_logged _ _)), logged_logged.
    rewrite (bind_Return _ _ _ (@process_voice_input_idle kb (logged w _) Hp)).
    erewrite bind_Return by reflexivity. cbv beta.
    rewrite (bind_Return _ _ _ (display_messages_run _ _)).
    rewrite (bind_Return _ _ _ (emit_logged _ _)), !logged_logged.
    rewrite Hchat. cbn [truthy_opt].
    assert (Htr : truthy text = true) by now destruct text.
    rewrite Htr.
    apply bind_Raise.
    erewrite bind_Return; cycle 1.
    { apply process_input_answered; simpl; auto using accepted_text.
      exact Hq. }
    cbv [st_rerun bind emit raise]. unfold logged, with_appended.
    cbn [session threads log messages].
    now rewrite <- !app_assoc.
  - rewrite !filter_app, Hc, filter_chat_events. simpl. now rewrite app_nil_r.
Qed.

Lemma X18_witness :
  exists evs,
    main sample_kb silent_voice_input sample_voice_output
      (widgets asking_cycle) initial_world =
      (Raise RerunException,
       {| session := with_appended initial_session
                       [user_message question;
                        assistant_message (lit "The program starts in January.")];
          threads := [] ++ [Target_speak (lit "The program starts in January.")
                              english];
          log := [] ++ evs ++ [MessagesAppend (user_message question);
                               KbQuery question english;
                               MessagesAppend
                                 (assistant_message
                                    (lit "The program starts in January."));
                               StRerun] |}) /\
    filter is_chat_message evs = map chat_event [].
Proof.
  apply (@X18_typed_question_is_answered_then_rerun
           sample_kb silent_voice_input sample_voice_output
           (widgets asking_cycle) initial_world question
           (lit "The program starts in January."));
    try reflexivity.
  vm_compute; discriminate.
Defined.

(** ** Questions and answers stay paired *)

Lemma well_paired_question (b : bool) (ms : list Message) (text : str) :
  well_paired b (ms ++ [user_message text]) = well_paired b ms.
Proof.
  revert b. induction ms as [|m ms IH]; intros b; simpl.
  - reflexivity.
  - destruct (is_assistant m); now rewrite IH.
Qed.

Lemma well_paired_question_answer (b : bool) (ms : list Message) (text r : str) :
  well_paired b (ms ++ [user_message text; assistant_message r]) =
  well_paired b ms.
Proof.
  revert b. induction ms as [|m ms IH]; intros b; simpl.
  - reflexivity.
  - destruct (is_assistant m); now rewrite IH.
Qed.

Lemma keeps_pairing_step (kb : KnowledgeBase) (s : Step) (w : World) :
  keeps_pairing w (apply_step kb s w).
Proof.
  unfold keeps_pairing. destruct s as [e| l | | text |]; simpl; auto.
  - destruct (process_input_cases kb text w) as [H | [[r H] | [e H]]];
      rewrite H; simpl; auto.
    + now rewrite well_paired_question_answer.
    + now rewrite well_paired_question.
  - rewrite toggle_recording_run. simpl.
    now destruct (recording (session w)).
Qed.

(** X19: in the history every assistant message comes right after a user
    message, and this is kept over any sequence of refresh cycles: an answer
    is never appended without its question just before it. *)
Theorem X19_answers_follow_their_question
    (kb : KnowledgeBase) (vi : VoiceInput) (vo : VoiceOutput)
    (cs : list Cycle) (w : World) :
  well_paired false (messages (session w)) = true ->
  well_paired false (messages (session (run_cycles kb vi vo cs w))) = true.
Proof.
  destruct (run_cycles_steps kb vi vo cs w) as (steps & -> & _).
  apply (@run_steps_invariant kb keeps_pairing (fun _ => True)).
  - intros w' H. exact H.
  - intros w1 w2 w3 H1 H2 H. apply H2, H1, H.
  - intros s w' _. apply keeps_pairing_step.
  - clear. induction steps; constructor; auto.
Qed.

Lemma X19_witness :
  well_paired false
    (messages (session (run_cycles sample_kb silent_voice_input
                          sample_voice_output
                          [asking_cycle; idle_cycle] staged_world))) = true.
Proof.
  apply (@X19_answers_follow_their_question
           sample_kb silent_voice_input sample_voice_output
           [asking_cycle; idle_cycle] staged_world).
  reflexivity.
Defined.

(** ** The staged transcript is processed once *)

Section Preserves.

Variable kb : KnowledgeBase.
Variable vi : VoiceInput.
Variable vo : VoiceOutput.
Variable R : World -> World -> Prop.

Hypothesis R_refl : forall w, R w w.
Hypothesis R_trans : forall w1 w2 w3, R w1 w2 -> R w2 w3 -> R w1 w3.
Hypothesis R_display : forall e, is_display e = true -> preserves R (emit e).
Hypothesis R_language : forall l, preserves R (set_language l).
Hypothesis R_voice : preserves R (process_voice_input kb).
Hypothesis R_toggle : preserves R toggle_recording.

Lemma preserves_ret {A} (a : A) : preserves R (ret a).
Proof. intros w. apply R_refl. Qed.

Lemma preserves_raise {A} (e : exn) : preserves R (@raise A e).
Proof. intros w. apply R_refl. Qed.

Lemma preserves_get_session : preserves R get_session.
Proof. intros w. apply R_refl. Qed.

Lemma preserves_bind {A B} (c : M A) (k : A -> M B) :
  preserves R c -> (forall a, preserves R (k a)) -> preserves R (bind c k).
Proof.
  intros Hc Hk w. unfold bind. specialize (Hc w).
  destruct (c w) as [[a|e] w1]; simpl in *; [|assumption].
  eapply R_trans; [eassumption|apply Hk].
Qed.

Create HintDb preserve.
#[local] Hint Resolve preserves_ret preserves_raise preserves_get_session
  R_language R_voice R_toggle : preserve.
#[local] Hint Extern 1 (preserves _ (emit _)) =>
  apply R_display; reflexivity : preserve.
#[local] Hint Extern 2 (preserves _ (bind _ _)) =>
  apply preserves_bind; [|intros ?] : preserve.
#[local] Hint Extern 3 (preserves _ (if ?b then _ else _)) =>
  destruct b : preserve.

Lemma preserves_st_rerun : preserves R st_rerun.
Proof. unfold st_rerun. auto with preserve. Qed.
#[local] Hint Resolve preserves_st_rerun : preserve.

Lemma preserves_sidebar (ui : Widgets) : preserves R (sidebar kb vi vo ui).
Proof. unfold sidebar. cbv zeta. auto 30 with preserve. Qed.

Lemma preserves_display_messages (ms : list Message) :
  preserves R (display_messages ms).
Proof. induction ms as [|m ms IH]; simpl; auto with preserve. Qed.
#[local] Hint Resolve preserves_sidebar preserves_display_messages : preserve.

(** A run of [main] in which no text is submitted. *)
Lemma preserves_main_quiet (ui : Widgets) :
  truthy_opt (chat_input ui) = false -> preserves R (main kb vi vo ui).
Proof.
  intros Hc. unfold main. rewrite Hc. auto 20 with preserve.
Qed.

Lemma preserves_run_cycles_quiet (cs : list Cycle) (w : World) :
  Forall no_text_typed cs -> R w (run_cycles kb vi vo cs w).
Proof.
  intros Hcs. revert w. induction Hcs as [|c cs Hc Hcs IH]; intros w; simpl.
  - apply R_refl.
  - eapply R_trans; [|apply IH].
    unfold run_cycle, script. apply preserves_bind.
    + destruct (mic_clicked c); auto with preserve.
    + intros _. now apply preserves_main_quiet.
Qed.

End Preserves.

Lemma voice_ledger_refl (w : World) : voice_ledger w w.
Proof. unfold voice_ledger. lia. Qed.

Lemma voice_ledger_trans (w1 w2 w3 : World) :
  voice_ledger w1 w2 -> voice_ledger w2 w3 -> voice_ledger w1 w3.
Proof. unfold voice_ledger. lia. Qed.

(** A step that adds no query and leaves the history and the staged
    transcript alone. *)
Lemma voice_ledger_quiet (w w' : World) (evs : list Event) :
  log w' = log w ++ evs ->
  count is_kb_query evs = 0 ->
  messages (session w') = messages (session w) ->
  last_voice_input (session w') = last_voice_input (session w) ->
  voice_ledger w w'.
Proof.
  intros Hl Hq Hm Hv. unfold voice_ledger, queried, asked, pending.
  rewrite Hl, Hm, Hv, count_app, Hq. lia.
Qed.

Lemma voice_ledger_process_voice_input (kb : KnowledgeBase) (w : World) :
  voice_ledger w (snd (process_voice_input kb w)).
Proof.
  destruct (pending w) eqn:Hp.
  - unfold pending in Hp.
    destruct (last_voice_input (session w)) as [t|] eqn:Hv; [|discriminate].
    rewrite (@process_voice_input_staged kb t w Hv)
      by (intros ->; discriminate).
    assert (Hpw : pending w = true) by (unfold pending; now rewrite Hv).
    destruct (process_input_cases kb t (cleared w)) as [H | [[r H] | [e H]]];
      rewrite H; simpl in Hp;
      unfold voice_ledger, queried, asked, pending; simpl;
      rewrite ?Hv; simpl; rewrite ?Hp;
      rewrite ?filter_app, ?length_app, ?count_app; unfold count; simpl; lia.
  - rewrite process_voice_input_idle by assumption. apply voice_ledger_refl.
Qed.

Lemma voice_ledger_run_cycles (kb : KnowledgeBase) (vi : VoiceInput)
    (vo : VoiceOutput) (cs : list Cycle) (w : World) :
  Forall no_text_typed cs -> voice_ledger w (run_cycles kb vi vo cs w).
Proof.
  apply preserves_run_cycles_quiet.
  - apply voice_ledger_refl.
  - apply voice_ledger_trans.
  - intros e He w'. apply voice_ledger_quiet with (evs := [e]); try reflexivity.
    destruct e; try discriminate; reflexivity.
  - intros l w'. now apply voice_ledger_quiet with (evs := [SetLanguage l]).
  - intros w'. apply voice_ledger_process_voice_input.
  - intros w'. rewrite toggle_recording_run. simpl.
    destruct (recording (session w')).
    + now apply voice_ledger_quiet with (evs := [SetRecording false]).
    + now apply voice_ledger_quiet with (evs := [SetRecording true]).
Qed.

(** Lines 118-183 when the selected language is the session's: only display
    calls. *)
Lemma sidebar_display (kb : KnowledgeBase) (vi : VoiceInput) (vo : VoiceOutput)
    (ui : Widgets) (w : World) :
  selectbox ui = language (session w) ->
  exists evs,
    sidebar kb vi vo ui w = (Return tt, logged w evs) /\
    forallb is_display evs = true.
Proof.
  intros Hsel.
  assert (Hb : Language_eqb (selectbox ui) (language (session w)) = true)
    by now apply Language_eqb_eq.
  unfold sidebar. cbv zeta. cbv [bind emit get_session].
  cbn [session threads log fst snd]. rewrite Hb. cbn [negb ret].
  destruct (is_ready vi), (is_ready vo), (is_ready kb);
    cbn [negb andb ret session threads log fst snd];
    unfold logged; rewrite <- !app_assoc; cbn [app];
    (eexists; split; reflexivity).
Qed.

(** [main] is the sidebar, the title, the staged transcript, and the rest. *)
Lemma main_unfold (kb : KnowledgeBase) (vi : VoiceInput) (vo : VoiceOutput)
    (ui : Widgets) :
  main kb vi vo ui =
    (sidebar kb vi vo ui ;;
     emit (StTitle (lit "OORT Africa Assistant")) ;;
     process_voice_input kb ;;
     main_from_display kb ui).
Proof. reflexivity. Qed.

(** Three quiet cycles after a transcript was staged: it is taken in the
    first one, answered once, and the later cycles leave the history alone. *)
Example staged_world_three_cycles :
  let w' := run_cycles sample_kb silent_voice_input sample_voice_output
              [idle_cycle; idle_cycle; idle_cycle] staged_world in
  messages (session w') =
    [user_message question;
     assistant_message (lit "The program starts in January.")] /\
  last_voice_input (session w') = None /\
  count is_clear (log w') = 1 /\
  queried w' = 1 /\
  List.length (threads w') = 1.
Proof. vm_compute. repeat split; reflexivity. Qed.

(** C2: a staged transcript is processed at most once.  The refresh code
    that finds it clears it first and then calls [process_input] on the
    extracted text.  A run of [main] that reaches line 185 (the session's
    language is selected) is: the display calls of the sidebar and the title,
    then the clearing, then [process_input] on the transcript, then the rest
    of the script.  Over any sequence of refresh cycles the clearing happens
    at most once; and over any sequence of cycles in which no text is typed
    (so that every query comes from a transcript), the knowledge base is
    queried at most once and at most one user message is appended, and none
    while the transcript is still waiting. *)
Theorem C2_staged_transcript_consumed_at_most_once
    (kb : KnowledgeBase) (voice_input : VoiceInput) (voice_output : VoiceOutput)
    (t : str) (w : World) :
  last_voice_input (session w) = Some t ->
  t <> [] ->
  process_voice_input kb w = process_input kb t (cleared w) /\
  last_voice_input (session (cleared w)) = None /\
  (forall ui : Widgets,
     selectbox ui = language (session w) ->
     exists evs,
       forallb is_display evs = true /\
       main kb voice_input voice_output ui w =
         (process_input kb t ;; main_from_display kb ui)
           (cleared (logged w evs))) /\
  (forall cs : list Cycle,
     let w' := run_cycles kb voice_input voice_output cs w in
     exists evs,
       log w' = log w ++ evs /\
       count is_clear evs <= 1 /\
       count is_clear evs = (if pending w' then 0 else 1)) /\
  (forall cs : list Cycle,
     Forall no_text_typed cs ->
     let w' := run_cycles kb voice_input voice_output cs w in
     queried w' + Nat.b2n (pending w') <= queried w + 1 /\
     asked w' + Nat.b2n (pending w') <= asked w + 1).
Proof.
  intros Hv Ht.
  assert (Hp : pending w = true).
  { unfold pending. rewrite Hv. now destruct t. }
  split; [now apply process_voice_input_staged|].
  split; [reflexivity|].
  split; [|split].
  - intros ui Hsel.
    destruct (sidebar_display kb voice_input voice_output ui w Hsel)
      as (evs1 & Hs & Hd).
    exists (evs1 ++ [StTitle (lit "OORT Africa Assistant")]).
    split; [rewrite forallb_app, Hd; reflexivity|].
    rewrite main_unfold.
    rewrite (bind_Return _ _ _ Hs).
    rewrite (bind_Return _ _ _ (emit_logged _ _)), logged_logged.
    unfold bind at 1.
    rewrite (@process_voice_input_staged kb t (logged w _) Hv Ht).
    reflexivity.
  - intros cs w'.
    destruct (ledger_run_cycles kb voice_input voice_output cs w)
      as (evs & Hl & _ & Hc).
    fold w' in Hl, Hc. rewrite Hp in Hc.
    exists evs. split; [assumption|].
    destruct (pending w'); simpl in Hc; lia.
  - intros cs Hcs w'.
    destruct (voice_ledger_run_cycles kb voice_input voice_output w Hcs)
      as (_ & _ & Hq & Ha).
    fold w' in Hq, Ha. rewrite Hp in Hq, Ha. simpl in Hq, Ha. lia.
Qed.

Lemma C2_witness :
  process_voice_input sample_kb staged_world =
    process_input sample_kb question (cleared staged_world) /\
  last_voice_input (session (cleared staged_world)) = None /\
  (forall ui : Widgets,
     selectbox ui = language (session staged_world) ->
     exists evs,
       forallb is_display evs = true /\
       main sample_kb silent_voice_input sample_voice_output ui staged_world =
         (process_input sample_kb question ;; main_from_display sample_kb ui)
           (cleared (logged staged_world evs))) /\
  (forall cs : list Cycle,
     let w' := run_cycles sample_kb silent_voice_input sample_voice_output
                 cs staged_world in
     exists evs,
       log w' = log staged_world ++ evs /\
       count is_clear evs <= 1 /\
       count is_clear evs = (if pending w' then 0 else 1)) /\
  (forall cs : list Cycle,
     Forall no_text_typed cs ->
     let w' := run_cycles sample_kb silent_voice_input sample_voice_output
                 cs staged_world in
     queried w' + Nat.b2n (pending w') <= queried staged_world + 1 /\
     asked w' + Nat.b2n (pending w') <= asked staged_world + 1).
Proof.
  apply (@C2_staged_transcript_consumed_at_most_once
           sample_kb silent_voice_input sample_voice_output
           question staged_world).
  - reflexivity.
  - vm_compute; discriminate.
Defined.

(** ** After a click on the microphone button *)

Lemma no_recording_change_run_cycles (kb : KnowledgeBase) (vi : VoiceInput)
    (vo : VoiceOutput) (cs : list Cycle) (w : World) :
  Forall (fun c => mic_clicked c = false) cs ->
  no_recording_change w (run_cycles kb vi vo cs w).
Proof.
  intros Hcs.
  destruct (run_cycles_steps kb vi vo cs w) as (steps & -> & HP).
  apply (@run_steps_invariant kb no_recording_change
           (fun s => exists c, In c cs /\ script_step c s)).
  - intros w'. now split.
  - intros w1 w2 w3 [H1 H2] [H3 H4]. split; congruence.
  - intros s w' (c & Hin & Hs).
    apply no_recording_change_step with (c := c); auto.
    rewrite Forall_forall in Hcs. now apply Hcs.
  - assumption.
Qed.

(** X6: a click on the microphone button of an idle session sets the
    recording flag for good.  Whatever the refresh cycles before and after
    the run of the started thread (without a further click), and whatever
    recognition would return, the flag is still set afterwards: the thread
    cannot clear it, and the button, disabled while the flag is set, cannot
    be clicked again. *)
Theorem X6_recording_stays_set_after_click
    (kb : KnowledgeBase) (vi : VoiceInput) (vo : VoiceOutput)
    (cs1 cs2 : list Cycle) (w : World) :
  recording (session w) = false ->
  Forall (fun c => mic_clicked c = false) cs1 ->
  Forall (fun c => mic_clicked c = false) cs2 ->
  recording
    (session (after_click kb vi vo cs1 cs2 w)) = true.
Proof.
  intros Hr H1 H2. unfold after_click.
  destruct (no_recording_change_run_cycles kb vi vo
              (snd (thread_run vi vo Target_record_audio
                      (run_cycles kb vi vo cs1 (snd (toggle_recording w))))) H2)
    as [-> _].
  rewrite listen_thread_run. cbn [snd logged session].
  destruct (no_recording_change_run_cycles kb vi vo
              (snd (toggle_recording w)) H1) as [-> _].
  rewrite toggle_recording_run, Hr. reflexivity.
Qed.

Lemma X6_witness :
  recording
    (session
       (after_click sample_kb heard_voice_input sample_voice_output
          [asking_cycle] [idle_cycle; french_cycle] initial_world)) = true.
Proof.
  apply (@X6_recording_stays_set_after_click
           sample_kb heard_voice_input sample_voice_output
           [asking_cycle] [idle_cycle; french_cycle] initial_world).
  - reflexivity.
  - repeat constructor.
  - repeat constructor.
Defined.

(** X17: what is said after a click on the microphone button is never
    answered.  When nothing is staged at the click, then over any refresh
    cycles before and after the run of the started thread in which no text
    is typed, and whatever recognition would return, the knowledge base is
    not queried, no user message is appended, and no transcript is ever
    staged. *)
Theorem X17_heard_question_is_never_answered
    (kb : KnowledgeBase) (vi : VoiceInput) (vo : VoiceOutput)
    (cs1 cs2 : list Cycle) (w : World) :
  pending w = false ->
  Forall no_text_typed cs1 ->
  Forall no_text_typed cs2 ->
  queried (after_click kb vi vo cs1 cs2 w) = queried w /\
  asked (after_click kb vi vo cs1 cs2 w) = asked w /\
  pending (after_click kb vi vo cs1 cs2 w) = false.
Proof.
  intros Hp H1 H2.
  assert (H : voice_ledger w (after_click kb vi vo cs1 cs2 w)).
  { unfold after_click.
    apply voice_ledger_trans with (w2 := snd (toggle_recording w)).
    { rewrite toggle_recording_run. simpl. destruct (recording (session w)).
      - now apply voice_ledger_quiet with (evs := [SetRecording false]).
      - now apply voice_ledger_quiet with (evs := [SetRecording true]). }
    eapply voice_ledger_trans; [apply (voice_ledger_run_cycles kb vi vo _ H1)|].
    eapply voice_ledger_trans; [|apply (voice_ledger_run_cycles kb vi vo _ H2)].
    rewrite listen_thread_run. simpl.
    eapply voice_ledger_quiet; try reflexivity.
    now destruct (is_ready vi). }
  destruct H as (Hq1 & Ha1 & Hq2 & Ha2). rewrite Hp in Hq2, Ha2.
  destruct (pending (after_click kb vi vo cs1 cs2 w));
    simpl in *; repeat split; lia.
Qed.

Lemma X17_witness :
  queried (after_click sample_kb heard_voice_input sample_voice_output
             [idle_cycle] [idle_cycle; french_cycle] initial_world) = 0 /\
  asked (after_click sample_kb heard_voice_input sample_voice_output
           [idle_cycle] [idle_cycle; french_cycle] initial_world) = 0 /\
  pending (after_click sample_kb heard_voice_input sample_voice_output
             [idle_cycle] [idle_cycle; french_cycle] initial_world) = false.
Proof.
  apply (@X17_heard_question_is_never_answered
           sample_kb heard_voice_input sample_voice_output
           [idle_cycle] [idle_cycle; french_cycle] initial_world).
  - reflexivity.
  - repeat constructor.
  - repeat constructor.
Defined.
